(** * timezone-bot: the timezone store, the display grouper and the refresh tick

    A shallow embedding of [main.py] (class [Timezone]).  The JSON document
    in [TIMEZONE_FILE] is the only durable state; the cog keeps the
    [time_message_cache] in memory.  Every method of the cog is written as a
    program over a small set of effects (lock, file, cache, platform calls),
    so that one definition yields the sequential behaviour, the order of
    lock and file events, and the points at which another task may run. *)

From Stdlib Require Import ZArith List String Ascii Bool Lia.
From Stdlib Require Import Permutation Sorted.
From Stdlib Require Import DecimalString DecimalPos DecimalZ.
Import ListNotations.

Local Open Scope list_scope.
Local Open Scope string_scope.
Local Open Scope Z_scope.

(** ** Python values *)

(** [str(n)] on an [int]: the decimal numeral, ["-"] in front of a negative
    one, ["0"] for zero. *)
Definition str (n : Z) : string := NilZero.string_of_int (Z.to_int n).

(** [int(s)] on a [str]; [None] stands for [ValueError].  It agrees with
    Python on every numeral [str] produces and on every string of ASCII
    digits with an optional leading minus; the keys of the stored document
    are written by [str] only. *)
Definition py_int (s : string) : option Z :=
  option_map Z.of_int (NilZero.int_of_string s).

(** Truth value of a [str]: only the empty string is false. *)
Definition truthy (s : string) : bool :=
  match s with EmptyString => false | String _ _ => true end.

(** Keys of a [dict] are compared with [==]. *)
Class EqKey (K : Type) := {
  keq : K -> K -> bool;
  keq_spec : forall x y, reflect (x = y) (keq x y)
}.

#[export] Instance EqKey_string : EqKey string :=
  {| keq := String.eqb; keq_spec := String.eqb_spec |}.

#[export] Instance EqKey_Z : EqKey Z :=
  {| keq := Z.eqb; keq_spec := Z.eqb_spec |}.

(** A [dict] keeps its items in insertion order; a key occurs once. *)
Definition dict (K V : Type) : Type := list (K * V).

Section Dict.
Context {K V : Type} `{EqKey K}.

(** [d.get(k)] *)
Fixpoint dict_get (k : K) (d : dict K V) : option V :=
  match d with
  | [] => None
  | (k', v) :: t => if keq k' k then Some v else dict_get k t
  end.

(** [k in d] *)
Definition dict_in (k : K) (d : dict K V) : bool :=
  match dict_get k d with Some _ => true | None => false end.

(** [d[k] = v]: an existing key keeps its place, a new one goes last. *)
Fixpoint dict_set (k : K) (v : V) (d : dict K V) : dict K V :=
  match d with
  | [] => [(k, v)]
  | (k', v') :: t =>
      if keq k' k then (k', v) :: t else (k', v') :: dict_set k v t
  end.

(** [del d[k]] / [d.pop(k, None)]: the item of [k] goes, the others keep
    their order.  Every [del] of the source is guarded by a membership
    test or follows a successful lookup, so [KeyError] does not arise. *)
Fixpoint dict_del (k : K) (d : dict K V) : dict K V :=
  match d with
  | [] => []
  | (k', v') :: t =>
      if keq k' k then dict_del k t else (k', v') :: dict_del k t
  end.

Definition keys (d : dict K V) : list K := map fst d.

(** The invariant of a [dict]: no key twice. *)
Definition dict_wf (d : dict K V) : Prop := NoDup (keys d).
End Dict.

(** ** The stored document *)

(** The value kept for one guild: ["timezones"] maps [str(user_id)] to the
    identifier, ["time_message"] is the optional pair (channel, message). *)
Record guild_data := {
  timezones : dict string string;
  time_message : option (Z * Z)
}.

(** The whole file: [str(guild_id)] to the guild's value.  [json.dump]
    followed by [json.load] gives the same document back, so the file is
    modelled by the document it holds. *)
Definition document : Type := dict string guild_data.

(** [data[str(guild_id)]["timezones"]], for a guild that is present. *)
Definition guild_timezones (g : string) (data : document) : dict string string :=
  match dict_get g data with
  | Some gd => timezones gd
  | None => []
  end.

(** [if str(guild_id) not in data: data[str(guild_id)] = {"timezones": {}}] *)
Definition ensure_guild (g : string) (data : document) : document :=
  if dict_in g data then data
  else dict_set g {| timezones := []; time_message := None |} data.

(** [data[g]["timezones"][u] = timezone] *)
Definition set_user_timezone (g u timezone : string) (data : document) : document :=
  match dict_get g data with
  | Some gd =>
      dict_set g {| timezones := dict_set u timezone (timezones gd);
                    time_message := time_message gd |} data
  | None => data
  end.

(** [del data[g]["timezones"][u]] *)
Definition del_user_timezone (g u : string) (data : document) : document :=
  match dict_get g data with
  | Some gd =>
      dict_set g {| timezones := dict_del u (timezones gd);
                    time_message := time_message gd |} data
  | None => data
  end.

(** [data[g]["time_message"] = (channel_id, message_id)] *)
Definition set_guild_time_message (g : string) (cm : Z * Z) (data : document) : document :=
  match dict_get g data with
  | Some gd =>
      dict_set g {| timezones := timezones gd; time_message := Some cm |} data
  | None => data
  end.

(** [del data[g]["time_message"]] *)
Definition del_guild_time_message (g : string) (data : document) : document :=
  match dict_get g data with
  | Some gd =>
      dict_set g {| timezones := timezones gd; time_message := None |} data
  | None => data
  end.

(** [data.get(g, {}).get("time_message", None)] *)
Definition doc_time_message (g : string) (data : document) : option (Z * Z) :=
  match dict_get g data with
  | Some gd => time_message gd
  | None => None
  end.

(** ** What the cog takes from outside *)

(** [pytz], [datetime] and [str.casefold] are libraries; the cog uses them
    through the following operations. *)
Class Externals := {
  (** a [pytz] timezone object *)
  tzinfo : Type;
  (** [pytz.timezone(name)]; [None] when it raises [UnknownTimeZoneError] *)
  pytz_timezone : string -> option tzinfo;
  (** no zone has the empty name: [pytz.timezone] of the empty string raises *)
  pytz_timezone_empty : pytz_timezone EmptyString = None;
  (** [tz.zone] *)
  zone : tzinfo -> string;
  (** a value of [datetime.datetime.now()] *)
  datetime : Type;
  (** [time_now.astimezone(tz).replace(tzinfo=None)]: the reading of the
      local clock face, counted in microseconds; naive date-times are
      equal, and ordered, as these counts are *)
  naive_local : datetime -> tzinfo -> Z;
  (** [naive_time.strftime('%b %d, %Y %I:%M:%S %p')] *)
  strftime_12h : Z -> string;
  (** [datetime.datetime.now(tz).strftime("%b %d, %Y %H:%M:%S %Z").strip()] *)
  strftime_zone : datetime -> tzinfo -> string;
  (** [int(time_now.timestamp())] *)
  timestamp : datetime -> Z;
  (** [s.casefold()] *)
  casefold : string -> string
}.

(** The exceptions that occur. *)
Inductive exn : Type :=
| RuntimeError      (* dictionary changed size during iteration *)
| ValueError        (* int() of a key that is no numeral *)
| KeyError          (* self.time_message_cache[guild_id] without the key *)
| HTTPException.    (* a platform call failed *)

(** A handle on a sent message: where it is. *)
Record message := { channel_id : Z; message_id : Z }.

(** [discord.Embed(title="What's the time?", description=...)]; the colour
    comes from a random generator and plays no part here. *)
Record embed := { title : string; description : string }.

(** What [logger] is given. *)
Inductive log_record : Type :=
| InvalidTimezoneWarning (timezone user : string)
| UpdateFailed (guild_id : Z) (e : exn)
| DeleteFailed (guild_id : Z) (e : exn)
| SettingTimezone (user_id : Z) (timezone : string).

(** What an observer of the process sees, in order.  An edit or a deletion
    is seen when the platform carried it out. *)
Inductive event : Type :=
| EvAcquire                          (* timezone_file_lock taken *)
| EvRelease                          (* timezone_file_lock given back *)
| EvLoad                             (* json.load of TIMEZONE_FILE *)
| EvDump (data : document)           (* json.dump to TIMEZONE_FILE *)
| EvLog (r : log_record)
| EvReply (content : string) (ephemeral : bool)
| EvEdit (m : message) (e : embed)
| EvDelete (m : message).

Section Programs.
Context {E : Externals}.

(** The primitive steps of the cog; the index is the type of the answer. *)
Inductive eff : Type -> Type :=
| LockAcquire : eff unit
| LockRelease : eff unit
| JsonLoad : eff document
| JsonDump : document -> eff unit
| Log : log_record -> eff unit
| Now : eff datetime
| CacheKeys : eff (list Z)
| CacheGet : Z -> eff (option message)
| CachePop : Z -> eff unit
| GetGuild : Z -> eff (option Z)
| SendMessages : message -> Z -> eff bool
| MessageEdit : message -> embed -> eff (option exn)
| MessageDelete : message -> eff (option exn)
| CtxReply : string -> bool -> eff unit.

(** A method body: it returns, raises, or performs a step and goes on. *)
Inductive prog (A : Type) : Type :=
| Ret (a : A)
| Raise (e : exn)
| Vis {X : Type} (e : eff X) (k : X -> prog A).

#[global] Arguments Ret {A} a.
#[global] Arguments Raise {A} e.
#[global] Arguments Vis {A X} e k.

Fixpoint bind {A B : Type} (p : prog A) (f : A -> prog B) : prog B :=
  match p with
  | Ret a => f a
  | Raise e => Raise e
  | Vis e k => Vis e (fun x => bind (k x) f)
  end.

Definition trigger {X : Type} (e : eff X) : prog X := Vis e Ret.

(** [try: p / except Exception as e: h e] *)
Fixpoint try_except {A : Type} (p : prog A) (h : exn -> prog A) : prog A :=
  match p with
  | Ret a => Ret a
  | Raise e => h e
  | Vis e k => Vis e (fun x => try_except (k x) h)
  end.

(** [try: p / finally: q] *)
Definition try_finally {A : Type} (p : prog A) (q : prog unit) : prog A :=
  bind (try_except (bind p (fun a => Ret (inl a))) (fun e => Ret (inr e)))
       (fun r => bind q (fun _ =>
          match r with inl a => Ret a | inr e => Raise e end)).

(** [async with self.timezone_file_lock: body] *)
Definition with_lock {A : Type} (body : prog A) : prog A :=
  bind (trigger LockAcquire) (fun _ => try_finally body (trigger LockRelease)).

(** A platform call that may raise. *)
Definition checked (call : eff (option exn)) : prog unit :=
  bind (trigger call) (fun r =>
    match r with None => Ret tt | Some e => Raise e end).

(** [for x in xs: body x] *)
Fixpoint for_each {X : Type} (xs : list X) (body : X -> prog unit) : prog unit :=
  match xs with
  | [] => Ret tt
  | x :: rest => bind (body x) (fun _ => for_each rest body)
  end.

End Programs.

Declare Scope prog_scope.
Delimit Scope prog_scope with prog.
Notation "x <- p ;; q" := (bind p (fun x => q))
  (at level 61, p at next level, right associativity) : prog_scope.
Notation "p ;; q" := (bind p (fun _ => q))
  (at level 61, right associativity) : prog_scope.
Local Open Scope prog_scope.

(** ** Text *)

Definition nl : string := String (ascii_of_nat 10) EmptyString.

(** [c.isspace()] on the ASCII range. *)
Definition is_space (c : ascii) : bool :=
  let n := nat_of_ascii c in
  ((9 <=? n) && (n <=? 13) || (28 <=? n) && (n <=? 32))%nat.

Definition is_empty (s : string) : bool := negb (truthy s).

(** [s.lstrip()] *)
Fixpoint lstrip (s : string) : string :=
  match s with
  | EmptyString => EmptyString
  | String c t => if is_space c then lstrip t else s
  end.

(** [s.rstrip()] *)
Fixpoint rstrip (s : string) : string :=
  match s with
  | EmptyString => EmptyString
  | String c t =>
      let t' := rstrip t in
      if is_space c && is_empty t' then EmptyString else String c t'
  end.

(** [s.strip()] *)
Definition strip (s : string) : string := lstrip (rstrip s).

(** [sep.join(parts)] *)
Fixpoint join (sep : string) (parts : list string) : string :=
  match parts with
  | [] => EmptyString
  | [p] => p
  | p :: rest => p ++ sep ++ join sep rest
  end.

(** [f"<@{user_id}>"], also the value of [user.mention] *)
Definition mention (user_id : Z) : string := "<@" ++ str user_id ++ ">".

(** [sorted(xs, key=...)]: a stable sort; [leb a b] compares the keys of
    [a] and [b].  Among items with equal keys the earlier stays first. *)
Fixpoint insert_sorted {A : Type} (leb : A -> A -> bool) (x : A) (l : list A) : list A :=
  match l with
  | [] => [x]
  | y :: t => if leb x y then x :: y :: t else y :: insert_sorted leb x t
  end.

Fixpoint sorted {A : Type} (leb : A -> A -> bool) (l : list A) : list A :=
  match l with
  | [] => []
  | x :: t => insert_sorted leb x (sorted leb t)
  end.

(** ** The process *)

Section Process.
Context {E : Externals}.

(** The chat platform and the clock, as the cog meets them during one run. *)
Record platform := {
  (** [bot.get_guild(guild_id) is not None] *)
  resolvable : Z -> bool;
  (** [time_message.channel.permissions_for(guild.me).send_messages] *)
  send_messages : message -> Z -> bool;
  (** the exception [message.edit] raises, if any *)
  edit_raises : message -> option exn;
  (** the exception [message.delete] raises, if any *)
  delete_raises : message -> option exn;
  (** the successive values of [datetime.datetime.now()] *)
  clock : nat -> datetime
}.

Record world := {
  file : document;                          (* TIMEZONE_FILE *)
  locked : bool;                            (* self.timezone_file_lock *)
  time_message_cache : dict Z message;      (* self.time_message_cache *)
  clock_reads : nat;
  history : list event
}.

Definition observe (ev : event) (w : world) : world :=
  {| file := file w; locked := locked w;
     time_message_cache := time_message_cache w;
     clock_reads := clock_reads w; history := (history w ++ [ev])%list |}.

Definition set_locked (b : bool) (w : world) : world :=
  {| file := file w; locked := b;
     time_message_cache := time_message_cache w;
     clock_reads := clock_reads w; history := history w |}.

Definition set_file (d : document) (w : world) : world :=
  {| file := d; locked := locked w;
     time_message_cache := time_message_cache w;
     clock_reads := clock_reads w; history := history w |}.

Definition set_cache (c : dict Z message) (w : world) : world :=
  {| file := file w; locked := locked w;
     time_message_cache := c;
     clock_reads := clock_reads w; history := history w |}.

Definition tick_clock (w : world) : world :=
  {| file := file w; locked := locked w;
     time_message_cache := time_message_cache w;
     clock_reads := S (clock_reads w); history := history w |}.

(** [w] once the events [evs] have been observed. *)
Definition after (evs : list event) (w : world) : world :=
  {| file := file w; locked := locked w;
     time_message_cache := time_message_cache w;
     clock_reads := clock_reads w; history := (history w ++ evs)%list |}.

(** One primitive step; [None] when the step cannot proceed (the lock is
    held). *)
Definition handle (P : platform) {X : Type} (e : eff X) (w : world)
  : option (X * world) :=
  match e in eff X return option (X * world) with
  | LockAcquire =>
      if locked w then None else Some (tt, observe EvAcquire (set_locked true w))
  | LockRelease => Some (tt, observe EvRelease (set_locked false w))
  | JsonLoad => Some (file w, observe EvLoad w)
  | JsonDump d => Some (tt, observe (EvDump d) (set_file d w))
  | Log r => Some (tt, observe (EvLog r) w)
  | Now => Some (clock P (clock_reads w), tick_clock w)
  | CacheKeys => Some (keys (time_message_cache w), w)
  | CacheGet g => Some (dict_get g (time_message_cache w), w)
  | CachePop g => Some (tt, set_cache (dict_del g (time_message_cache w)) w)
  | GetGuild g => Some (if resolvable P g then Some g else None, w)
  | SendMessages m g => Some (send_messages P m g, w)
  | MessageEdit m em =>
      match edit_raises P m with
      | None => Some (None, observe (EvEdit m em) w)
      | Some e => Some (Some e, w)
      end
  | MessageDelete m =>
      match delete_raises P m with
      | None => Some (None, observe (EvDelete m) w)
      | Some e => Some (Some e, w)
      end
  | CtxReply s eph => Some (tt, observe (EvReply s eph) w)
  end.

Inductive outcome (A : Type) : Type :=
| Returned (a : A)
| Raised (e : exn)
| Blocked.

#[global] Arguments Returned {A} a.
#[global] Arguments Raised {A} e.
#[global] Arguments Blocked {A}.

(** A method run to its end with no other task in between. *)
Fixpoint run (P : platform) {A : Type} (p : prog A) (w : world)
  : outcome A * world :=
  match p with
  | Ret a => (Returned a, w)
  | Raise e => (Raised e, w)
  | Vis e k =>
      match handle P e w with
      | Some (x, w') => run P (k x) w'
      | None => (Blocked, w)
      end
  end.

(** The process between two operations: the lock is free. *)
Definition idle (d : document) (c : dict Z message) : world :=
  {| file := d; locked := false; time_message_cache := c;
     clock_reads := 0; history := [] |}.

End Process.

(** ** The cog [Timezone] *)

Section Cog.
Context {E : Externals}.

(** [save_timezone(guild_id, user_id, timezone)] *)
Definition save_timezone (guild_id user_id : Z) (timezone : string) : prog unit :=
  with_lock (
    data <- trigger JsonLoad ;;
    let data := ensure_guild (str guild_id) data in
    let data := set_user_timezone (str guild_id) (str user_id) timezone data in
    trigger (JsonDump data)).

(** What [get_timezone] returns: the mapping of the guild when [user_id] is
    [None], else the user's timezone or [None]. *)
Definition get_timezone_result (user_id : option Z) : Type :=
  match user_id with
  | None => dict Z tzinfo
  | Some _ => option tzinfo
  end.

(** The loop [for user_id, timezone in data[g]["timezones"].items()] of
    [get_timezone].  [items] are the items the iterator has not yet given,
    [di_used] the size of the dict when the iterator was made: each call of
    the iterator first compares it with the present size of the dict and
    raises [RuntimeError] when they differ.  [data] is the loaded document,
    which the [except] branch changes in place; [tzs] is the local
    [timezones].  On the right of [timezones[int(user_id)] = ...] the call
    of [pytz.timezone] is evaluated before [int(user_id)]. *)
Fixpoint get_timezone_loop (g : string) (di_used : nat)
    (items : list (string * string)) (data : document) (tzs : dict Z tzinfo)
  : prog (dict Z tzinfo) :=
  if negb (Nat.eqb (List.length (guild_timezones g data)) di_used)
  then Raise RuntimeError
  else
    match items with
    | [] => Ret tzs
    | (user_id, timezone) :: rest =>
        match pytz_timezone timezone with
        | Some tz =>
            match py_int user_id with
            | Some n => get_timezone_loop g di_used rest data (dict_set n tz tzs)
            | None => Raise ValueError
            end
        | None =>
            trigger (Log (InvalidTimezoneWarning timezone user_id)) ;;
            let data' := del_user_timezone g user_id data in
            with_lock (trigger (JsonDump data')) ;;
            get_timezone_loop g di_used rest data' tzs
        end
    end.

(** [get_timezone(guild_id, user_id=None)] *)
Definition get_timezone (guild_id : Z) (user_id : option Z)
  : prog (get_timezone_result user_id) :=
  data <- with_lock (trigger JsonLoad) ;;
  match user_id as u return prog (get_timezone_result u) with
  | None =>
      if negb (dict_in (str guild_id) data) then Ret []
      else
        let tzs := guild_timezones (str guild_id) data in
        get_timezone_loop (str guild_id) (List.length tzs) tzs data []
  | Some user_id =>
      if negb (dict_in (str guild_id) data) then Ret None
      else
        match dict_get (str user_id) (guild_timezones (str guild_id) data) with
        | Some user_timezone =>
            if truthy user_timezone then
              match pytz_timezone user_timezone with
              | Some tz => Ret (Some tz)
              | None =>
                  trigger (Log (InvalidTimezoneWarning user_timezone (str user_id))) ;;
                  let data' :=
                    del_user_timezone (str guild_id) (str user_id) data in
                  with_lock (trigger (JsonDump data')) ;;
                  Ret None
              end
            else Ret None
        | None => Ret None
        end
  end.

(** [remove_timezone(guild_id, user_id)] *)
Definition remove_timezone (guild_id user_id : Z) : prog unit :=
  with_lock (
    data <- trigger JsonLoad ;;
    if dict_in (str guild_id) data
       && dict_in (str user_id) (guild_timezones (str guild_id) data)
    then trigger (JsonDump (del_user_timezone (str guild_id) (str user_id) data))
    else Ret tt).

(** [get_time_message(guild_id)] *)
Definition get_time_message (guild_id : Z) : prog (option (Z * Z)) :=
  data <- with_lock (trigger JsonLoad) ;;
  Ret (doc_time_message (str guild_id) data).

(** [save_time_message(guild_id, channel_id, message_id)] *)
Definition save_time_message (guild_id channel message : Z) : prog unit :=
  with_lock (
    data <- trigger JsonLoad ;;
    let data := ensure_guild (str guild_id) data in
    let data := set_guild_time_message (str guild_id) (channel, message) data in
    trigger (JsonDump data)).

(** [remove_time_message(guild_id)] *)
Definition remove_time_message (guild_id : Z) : prog unit :=
  with_lock (
    data <- trigger JsonLoad ;;
    if dict_in (str guild_id) data
       && (match doc_time_message (str guild_id) data with
           | Some _ => true | None => false end)
    then trigger (JsonDump (del_guild_time_message (str guild_id) data))
    else Ret tt) ;;
  trigger (CachePop guild_id).

(** *** The display *)

(** The body of the loop that fills [users_by_timezones]: the user joins the
    list kept under its naive local time, or starts that list. *)
Definition add_user (time_now : datetime) (acc : dict Z (list (Z * tzinfo)))
    (item : Z * tzinfo) : dict Z (list (Z * tzinfo)) :=
  let naive_time := naive_local time_now (snd item) in
  match dict_get naive_time acc with
  | None => dict_set naive_time [item] acc
  | Some users => dict_set naive_time (users ++ [item])%list acc
  end.

(** [users_by_timezones] after the loop over [timezones.items()]. *)
Definition users_by_timezones (time_now : datetime) (tzs : dict Z tzinfo)
  : dict Z (list (Z * tzinfo)) :=
  fold_left (add_user time_now) tzs [].

(** The order of the keys [(x[0], len(x[1]))]: tuples compare item by item. *)
Definition group_key_leb (x y : Z * list (Z * tzinfo)) : bool :=
  (fst x <? fst y)%Z
  || ((fst x =? fst y)%Z && (List.length (snd x) <=? List.length (snd y))%nat).

(** [users_by_timezones_sorted] *)
Definition users_by_timezones_sorted (time_now : datetime)
    (tzs : dict Z tzinfo) : list (Z * list (Z * tzinfo)) :=
  sorted group_key_leb (users_by_timezones time_now tzs).

(** The two lines one group adds to [time_text]. *)
Definition group_text (group : Z * list (Z * tzinfo)) : string :=
  "**" ++ strftime_12h (fst group) ++ ":**" ++ nl
  ++ join " " (map (fun ut => mention (fst ut)) (snd group)) ++ nl ++ nl.

Definition no_one_text : string := "No one has set their timezone.".

(** [time_text] at the end of the [if not timezones: ... else: ...] and the
    [rstrip] that follows. *)
Definition time_text (time_now : datetime) (tzs : dict Z tzinfo) : string :=
  rstrip
    (match tzs with
     | [] => no_one_text
     | _ :: _ =>
         fold_left (fun text group => text ++ group_text group)
                   (users_by_timezones_sorted time_now tzs) EmptyString
     end).

(** [create_time_message_embed(guild, show_last_updated=...)] *)
Definition create_time_message_embed (guild : Z) (show_last_updated : bool)
  : prog embed :=
  tzs <- get_timezone guild None ;;
  time_now <- trigger Now ;;
  let text := time_text time_now tzs in
  let text :=
    if show_last_updated
    then text ++ nl ++ nl ++ "*Last Updated: <t:" ++ str (timestamp time_now) ++ ":f>*"
    else text in
  Ret {| title := "What's the time?"; description := strip text |}.

(** *** The refresh tick *)

(** The body of the [for] of [time_message_updater_task] for one guild. *)
Definition update_guild (guild_id : Z) : prog unit :=
  guild <- trigger (GetGuild guild_id) ;;
  match guild with
  | None => remove_time_message guild_id
  | Some guild =>
      try_except
        (cached <- trigger (CacheGet guild_id) ;;
         match cached with
         | None => Raise KeyError
         | Some time_message =>
             can_send <- trigger (SendMessages time_message guild) ;;
             if can_send : bool then
               em <- create_time_message_embed guild true ;;
               checked (MessageEdit time_message em)
             else Ret tt
         end)
        (fun e => trigger (Log (UpdateFailed guild_id e)))
  end.

(** [time_message_updater_task()]: one tick. *)
Definition time_message_updater_task : prog unit :=
  guild_ids <- trigger CacheKeys ;;
  for_each guild_ids update_guild.

(** *** Commands *)

(** What a command reads from [ctx]. *)
Record context := {
  ctx_guild : Z;            (* ctx.guild.id *)
  ctx_author : Z;           (* ctx.author.id *)
  manage_guild : bool       (* ctx.author.guild_permissions.manage_guild *)
}.

Definition invalid_timezone_text : string :=
  "Invalid timezone." ++ nl
  ++ "Please provide a valid TZ identifier from "
  ++ "[here](<https://en.wikipedia.org/wiki/List_of_tz_database_time_zones#List>).".

(** [timezone set]: [timezone_set(ctx, timezone, user=None)] *)
Definition timezone_set (ctx : context) (timezone : string) (user : option Z)
  : prog unit :=
  let allowed :=
    match user with
    | None => Some (ctx_author ctx)
    | Some u =>
        if negb (manage_guild ctx) && negb (ctx_author ctx =? u)%Z
        then None else Some u
    end in
  match allowed with
  | None =>
      trigger (CtxReply
        "You do not have permission to set the timezone for others." true)
  | Some user =>
      let timezone := strip (casefold timezone) in
      match pytz_timezone timezone with
      | None => trigger (CtxReply invalid_timezone_text true)
      | Some tz =>
          trigger (Log (SettingTimezone user timezone)) ;;
          save_timezone (ctx_guild ctx) user timezone ;;
          time_now <- trigger Now ;;
          trigger (CtxReply
            (mention user ++ "'s timezone is set to " ++ zone tz
             ++ ". The current date and time is "
             ++ strftime_zone time_now tz ++ ".") false)
      end
  end.

(** [timemessage clear]: [time_message_clear(ctx)] *)
Definition time_message_clear (ctx : context) : prog unit :=
  cached <- trigger (CacheGet (ctx_guild ctx)) ;;
  match cached with
  | None => trigger (CtxReply "No persistent time message exists." true)
  | Some time_message =>
      try_except (checked (MessageDelete time_message))
        (fun e => trigger (Log (DeleteFailed (ctx_guild ctx) e))) ;;
      remove_time_message (ctx_guild ctx) ;;
      trigger (CtxReply "Persistent time message cleared." false)
  end.

End Cog.

(** ** Tasks and the lock *)

Section Tasks.
Context {E : Externals}.




(** The lock discipline read off a history: every [json.dump] happens while
    the lock is held and after a [json.load] made under the same holding of
    the lock.  [held] says the lock is held, [loaded] that the file was
    read since it was taken. *)
Fixpoint dumps_follow_load (held loaded : bool) (h : list event) : bool :=
  match h with
  | [] => true
  | EvAcquire :: t => dumps_follow_load true false t
  | EvRelease :: t => dumps_follow_load false false t
  | EvLoad :: t => dumps_follow_load held held t
  | EvDump _ :: t => held && loaded && dumps_follow_load held loaded t
  | _ :: t => dumps_follow_load held loaded t
  end.

Definition read_modify_write_atomic (h : list event) : bool :=
  dumps_follow_load false false h.

End Tasks.

(** ** A small instance of the outside world

    Four fixed-offset zones, a clock that counts microseconds, ASCII case
    folding.  It serves to run the definitions on concrete inputs. *)

Record sample_zone := { zone_name : string; utc_offset_seconds : Z }.

Definition sample_zones : dict string sample_zone :=
  [ ("utc",       {| zone_name := "UTC";       utc_offset_seconds := 0 |});
    ("etc/gmt",   {| zone_name := "Etc/GMT";   utc_offset_seconds := 0 |});
    ("etc/gmt-9", {| zone_name := "Etc/GMT-9"; utc_offset_seconds := 32400 |});
    ("etc/gmt+5", {| zone_name := "Etc/GMT+5"; utc_offset_seconds := -18000 |}) ].

Definition ascii_lower (c : ascii) : ascii :=
  let n := nat_of_ascii c in
  if ((65 <=? n) && (n <=? 90))%nat then ascii_of_nat (n + 32) else c.

Fixpoint string_map (f : ascii -> ascii) (s : string) : string :=
  match s with
  | EmptyString => EmptyString
  | String c t => String (f c) (string_map f t)
  end.

#[export] Instance sample_externals : Externals := {|
  tzinfo := sample_zone;
  pytz_timezone := fun name => dict_get name sample_zones;
  pytz_timezone_empty := eq_refl;
  zone := zone_name;
  datetime := Z;
  naive_local := fun now tz => now + utc_offset_seconds tz * 1000000;
  strftime_12h := str;
  strftime_zone := fun now tz =>
    str (now + utc_offset_seconds tz * 1000000) ++ " " ++ zone_name tz;
  timestamp := fun now => now / 1000000;
  casefold := string_map ascii_lower
|}.

Definition sample_platform : platform := {|
  resolvable := fun g => g =? 1;
  send_messages := fun m g => channel_id m =? 5;
  edit_raises := fun _ => None;
  delete_raises := fun _ => None;
  clock := fun n => 1700000000000000 + Z.of_nat n
|}.

(** The same platform when it refuses every edit. *)
Definition refusing_platform : platform := {|
  resolvable := fun g => g =? 1;
  send_messages := fun m g => channel_id m =? 5;
  edit_raises := fun _ => Some HTTPException;
  delete_raises := fun _ => None;
  clock := fun n => 1700000000000000 + Z.of_nat n
|}.

(** Sample documents: guild 1 with known identifiers, and with one that
    [pytz] does not know. *)
Definition sample_document : document :=
  [("1", {| timezones := [("10", "utc"); ("11", "etc/gmt"); ("12", "etc/gmt-9")];
            time_message := Some (5, 6) |})].

Definition stale_document : document :=
  [("1", {| timezones := [("10", "mars/phobos")];
            time_message := Some (5, 6) |})].

Definition sample_message : message := {| channel_id := 5; message_id := 6 |}.

(** ** The commands that read a timezone *)

Section ReadingCommands.
Context {E : Externals}.


(** [timezone current]: [timezone_current(ctx)] *)
Definition timezone_current (ctx : context) : prog unit :=
  tz <- get_timezone (ctx_guild ctx) (Some (ctx_author ctx)) ;;
  match tz : option tzinfo with
  | None => trigger (CtxReply "You have not set your timezone yet." true)
  | Some tz =>
      time_now <- trigger Now ;;
      trigger (CtxReply
        ("Your timezone is set to " ++ zone tz
         ++ ". The current date and time is "
         ++ strftime_zone time_now tz ++ ".") false)
  end.

(** [timein(ctx, timezone)] *)
Definition timein (ctx : context) (timezone : string) : prog unit :=
  let timezone := strip (casefold timezone) in
  match pytz_timezone timezone with
  | None => trigger (CtxReply invalid_timezone_text true)
  | Some tz =>
      time_now <- trigger Now ;;
      trigger (CtxReply
        ("The current date and time in " ++ zone tz ++ " is "
         ++ strftime_zone time_now tz ++ ".") false)
  end.


End ReadingCommands.

(** ** Autocompletion *)



Section Autocomplete.
Context {E : Externals}.


End Autocomplete.

(** ** The commands that post messages, and the start of the cog

    [timezone clear], [timemessage send] and
    [populate_time_message_cache] do what the methods above do and more:
    they fill the cache, send and pin messages, fetch channels and
    messages, and log lines of their own.  They are written as functions
    of the state of the process, over the programs above. *)

(** What these methods add to the observations; each note is kept with the
    length of [history] at the time, which places it among the events. *)
Inductive note : Type :=
| ClearingTimezone (user author : Z)       (* logger.info of timezone_clear *)
| TimeMessageNotFound (guild_id : string)  (* logger.warning of populate *)
| Sent (m : message) (em : embed)          (* channel.send returned m *)
| Pinned (m : message).                    (* message.pin returned *)

Record session := {
  core : world;
  journal : list (nat * note)
}.

Section Posting.
Context {E : Externals}.

(** The platform calls of these methods. *)
Record gateway := {
  (** [bot.get_channel(channel_id) is not None] *)
  get_channel : Z -> bool;
  (** the exception [bot.fetch_channel(channel_id)] raises, if any *)
  fetch_channel_raises : Z -> option exn;
  (** the exception [channel.fetch_message(message_id)] raises, if any *)
  fetch_message_raises : Z -> Z -> option exn;
  (** [channel.send(embed=...)] on the channel: the exception it raises, or
      the id of the message sent *)
  send_result : Z -> exn + Z;
  (** [channel.permissions_for(ctx.guild.me).manage_messages] *)
  manage_messages : Z -> Z -> bool;
  (** the exception [message.pin()] raises, if any *)
  pin_raises : message -> option exn
}.

(** A method over the state of the process. *)
Definition task (A : Type) : Type := session -> outcome A * session.

Definition task_ret {A : Type} (a : A) : task A := fun s => (Returned a, s).

Definition task_raise {A : Type} (e : exn) : task A := fun s => (Raised e, s).

Definition task_bind {A B : Type} (t : task A) (f : A -> task B) : task B :=
  fun s =>
    match t s with
    | (Returned a, s') => f a s'
    | (Raised e, s') => (Raised e, s')
    | (Blocked, s') => (Blocked, s')
    end.

(** [try: t / except Exception as e: h e] *)
Definition task_try {A : Type} (t : task A) (h : exn -> task A) : task A :=
  fun s =>
    match t s with
    | (Raised e, s') => h e s'
    | r => r
    end.

(** A program of the cog, run on the process. *)
Definition lift (P : platform) {A : Type} (p : prog A) : task A :=
  fun s =>
    let r := run P p (core s) in
    (fst r, {| core := snd r; journal := journal s |}).

Definition take_note (n : note) : task unit :=
  fun s =>
    (Returned tt,
     {| core := core s;
        journal := (journal s ++ [(List.length (history (core s)), n)])%list |}).

(** [self.time_message_cache[guild_id] = message] *)
Definition cache_set (guild_id : Z) (m : message) : task unit :=
  fun s =>
    (Returned tt,
     {| core := set_cache (dict_set guild_id m (time_message_cache (core s)))
                  (core s);
        journal := journal s |}).

(** A platform call that may raise. *)
Definition task_checked (r : option exn) : task unit :=
  match r with None => task_ret tt | Some e => task_raise e end.

(** [for x in xs: body x] *)
Fixpoint task_for_each {X : Type} (xs : list X) (body : X -> task unit)
  : task unit :=
  match xs with
  | [] => task_ret tt
  | x :: rest => task_bind (body x) (fun _ => task_for_each rest body)
  end.


(** [channel.mention] *)
Definition channel_mention (channel : Z) : string := "<#" ++ str channel ++ ">".

(** [timemessage send]: [time_message_send(ctx, channel=None)];
    [ctx_channel] is [ctx.channel.id]. *)
Definition time_message_send (P : platform) (G : gateway) (ctx : context)
    (ctx_channel : Z) (channel : option Z) : task unit :=
  let channel := match channel with Some c => c | None => ctx_channel end in
  task_bind (lift P (trigger (CacheGet (ctx_guild ctx)))) (fun cached =>
  task_bind
    (match cached with
     | Some old =>
         lift P (try_except (checked (MessageDelete old))
                   (fun e => trigger (Log (DeleteFailed (ctx_guild ctx) e))))
     | None => task_ret tt
     end) (fun _ =>
  task_bind (lift P (create_time_message_embed (ctx_guild ctx) true)) (fun em =>
  match send_result G channel with
  | inl HTTPException =>
      lift P (trigger (CtxReply
        "Failed to send the persistent time message." true))
  | inl e => task_raise e
  | inr id =>
      let m := {| channel_id := channel; message_id := id |} in
      task_bind (take_note (Sent m em)) (fun _ =>
      task_bind (lift P (save_time_message (ctx_guild ctx) channel id)) (fun _ =>
      task_bind (cache_set (ctx_guild ctx) m) (fun _ =>
      task_bind (lift P (trigger (CtxReply
        ("Persistent time message sent in " ++ channel_mention channel ++ ".")
        false))) (fun _ =>
      if manage_messages G channel (ctx_guild ctx) then
        task_bind (task_checked (pin_raises G m)) (fun _ =>
        take_note (Pinned m))
      else task_ret tt))))
  end))).

(** The body of the loop of [populate_time_message_cache] for one item of
    the loaded document. *)
Definition populate_guild (P : platform) (G : gateway)
    (item : string * guild_data) : task unit :=
  match time_message (snd item) with
  | None => task_ret tt
  | Some (channel, id) =>
      task_try
        (task_bind
           (if get_channel G channel then task_ret tt
            else task_checked (fetch_channel_raises G channel)) (fun _ =>
         task_bind (task_checked (fetch_message_raises G channel id)) (fun _ =>
         match py_int (fst item) with
         | Some guild_id =>
             cache_set guild_id {| channel_id := channel; message_id := id |}
         | None => task_raise ValueError
         end)))
        (fun _ =>
           task_bind (take_note (TimeMessageNotFound (fst item))) (fun _ =>
           match py_int (fst item) with
           | Some guild_id => lift P (remove_time_message guild_id)
           | None => task_raise ValueError
           end))
  end.

(** [populate_time_message_cache()] *)
Definition populate_time_message_cache (P : platform) (G : gateway)
  : task unit :=
  task_bind (lift P (with_lock (trigger JsonLoad))) (fun data =>
  task_for_each data (populate_guild P G)).

(** The process when the cog is loaded: nothing cached, nothing noted. *)
Definition fresh (d : document) : session :=
  {| core := idle d []; journal := [] |}.

End Posting.


Definition lost_gateway : gateway := {|
  get_channel := fun _ => false;
  fetch_channel_raises := fun _ => Some HTTPException;
  fetch_message_raises := fun _ _ => Some HTTPException;
  send_result := fun _ => inl HTTPException;
  manage_messages := fun _ _ => false;
  pin_raises := fun _ => None
|}.

(** ** Notions used in the statements *)

Section Notions.
Context {E : Externals}.

(** A stored item [get_timezone] accepts: its identifier is known to
    [pytz] and its key is a numeral. *)
Definition entry_ok (item : string * string) : Prop :=
  (exists tz, pytz_timezone (snd item) = Some tz)
  /\ (exists n, py_int (fst item) = Some n).

(** [acc] groups the items [seen] by naive local time: its keys are
    distinct, each list holds items of [seen] whose local time is the key,
    and each item of [seen] is in the list kept under its local time. *)
Definition grouped (time_now : datetime) (seen : list (Z * tzinfo))
    (acc : dict Z (list (Z * tzinfo))) : Prop :=
  dict_wf acc
  /\ (forall k users, dict_get k acc = Some users ->
        forall item, In item users ->
          naive_local time_now (snd item) = k /\ In item seen)
  /\ (forall item, In item seen ->
        exists users,
          dict_get (naive_local time_now (snd item)) acc = Some users
          /\ In item users).

(** A member is listed in a group of the display. *)
Definition in_group (user_id : Z) (group : Z * list (Z * tzinfo)) : Prop :=
  In user_id (map fst (snd group)).

(** What a world keeps whatever [get_timezone] does: the lock is free
    again, the cache and the clock are untouched, and every guild keeps its
    ["time_message"]. *)
Definition same_messages (w w' : world) : Prop :=
  locked w' = false
  /\ time_message_cache w' = time_message_cache w
  /\ clock_reads w' = clock_reads w
  /\ (forall g, doc_time_message g (file w') = doc_time_message g (file w)).

(** A stored item and the item [get_timezone] makes of it: the key is the
    numeral of the user id, the identifier names the timezone. *)
Definition resolves (item : string * string) (out : Z * tzinfo) : Prop :=
  fst item = str (fst out) /\ pytz_timezone (snd item) = Some (snd out).

(** The channel and the message of a stored pair can be had from the
    platform: the channel is known or can be fetched, and the message can
    be fetched. *)
Definition fetchable (G : gateway) (channel id : Z) : bool :=
  (get_channel G channel
   || match fetch_channel_raises G channel with None => true | Some _ => false end)
  && match fetch_message_raises G channel id with
     | None => true | Some _ => false
     end.

(** The items of a mapping whose naive local time is [k], in the order of
    the mapping. *)
Definition at_local_time (time_now : datetime) (k : Z)
    (items : list (Z * tzinfo)) : list (Z * tzinfo) :=
  filter (fun item => naive_local time_now (snd item) =? k) items.

(** After the items [seen], the list kept under [k] is the items of [seen]
    at local time [k], and no list is kept when there is none. *)
Definition groups_are_filters (time_now : datetime) (seen : list (Z * tzinfo))
    (acc : dict Z (list (Z * tzinfo))) : Prop :=
  forall k,
    dict_get k acc
    = match at_local_time time_now k seen with
      | [] => None
      | users => Some users
      end.

(** The guilds of [gs] that do not resolve include [g]. *)
Definition evicted (P : platform) (gs : list Z) (g : Z) : bool :=
  existsb (fun g0 => negb (resolvable P g0) && (g0 =? g)) gs.

(** The process after the first step of [timemessage send]: the message
    in the cache, if any, has been deleted, or the failure logged. *)
Definition after_delete (P : platform) (guild : Z) (w : world) : world :=
  match dict_get guild (time_message_cache w) with
  | Some old =>
      match delete_raises P old with
      | None => observe (EvDelete old) w
      | Some e => observe (EvLog (DeleteFailed guild e)) w
      end
  | None => w
  end.

End Notions.

(** * Properties *)

(** ** Numerals *)

Lemma py_int_str (n : Z) : py_int (str n) = Some n.
Proof.
  unfold py_int, str.
  rewrite NilZero.isi.
  - simpl. now rewrite DecimalZ.of_to.
  - destruct n as [|p|p]; simpl; try discriminate.
    intros [= Hp]. now apply (DecimalPos.Unsigned.to_uint_nonnil p).
  - destruct n as [|p|p]; simpl; try discriminate.
    intros [= Hp]. now apply (DecimalPos.Unsigned.to_uint_nonnil p).
Qed.

Lemma str_inj (n m : Z) : str n = str m -> n = m.
Proof.
  intros Heq.
  assert (Hs : py_int (str n) = py_int (str m)) by now rewrite Heq.
  rewrite !py_int_str in Hs. congruence.
Qed.

(** ** Dicts *)

Section DictFacts.
Context {K V : Type} `{EqKey K}.
Implicit Types (k : K) (v : V) (d : dict K V).

Lemma keq_refl k : keq k k = true.
Proof. now destruct (keq_spec k k). Qed.

Lemma keq_neq k k' : k <> k' -> keq k k' = false.
Proof. intros Hne. now destruct (keq_spec k k'). Qed.

Lemma dict_get_set_same k v d : dict_get k (dict_set k v d) = Some v.
Proof.
  induction d as [|[k' v'] t IH]; simpl.
  - now rewrite keq_refl.
  - destruct (keq_spec k' k) as [->|Hne]; simpl.
    + now rewrite keq_refl.
    + now rewrite (keq_neq _ _ Hne).
Qed.

Lemma dict_get_set_other k k0 v d :
  k0 <> k -> dict_get k0 (dict_set k v d) = dict_get k0 d.
Proof.
  intros Hne. induction d as [|[k' v'] t IH]; simpl.
  - rewrite keq_neq; auto.
  - destruct (keq_spec k' k) as [->|Hk]; simpl.
    + rewrite keq_neq; auto.
    + now rewrite IH.
Qed.

Lemma dict_get_del_same k d : dict_get k (dict_del k d) = None.
Proof.
  induction d as [|[k' v'] t IH]; simpl; auto.
  destruct (keq_spec k' k) as [->|Hne]; simpl; auto.
  now rewrite (keq_neq _ _ Hne).
Qed.

Lemma dict_get_del_other k k0 d :
  k0 <> k -> dict_get k0 (dict_del k d) = dict_get k0 d.
Proof.
  intros Hne. induction d as [|[k' v'] t IH]; simpl; auto.
  destruct (keq_spec k' k) as [->|Hk]; simpl.
  - rewrite keq_neq; auto.
  - now rewrite IH.
Qed.

Lemma dict_del_absent k d : dict_get k d = None -> dict_del k d = d.
Proof.
  induction d as [|[k' v'] t IH]; simpl; auto.
  destruct (keq k' k); [discriminate|].
  intros Hg. now rewrite IH.
Qed.

Lemma dict_del_twice k d : dict_del k (dict_del k d) = dict_del k d.
Proof. apply dict_del_absent, dict_get_del_same. Qed.

Lemma dict_set_same_value k v d : dict_get k d = Some v -> dict_set k v d = d.
Proof.
  induction d as [|[k' v'] t IH]; simpl; [discriminate|].
  destruct (keq k' k).
  - now intros [= ->].
  - intros Hg. now rewrite IH.
Qed.

Lemma dict_in_false k d : dict_in k d = false <-> dict_get k d = None.
Proof. unfold dict_in. destruct (dict_get k d); split; congruence. Qed.

Lemma keys_dict_set_in k v d :
  dict_in k d = true -> keys (dict_set k v d) = keys d.
Proof.
  unfold dict_in, keys. induction d as [|[k' v'] t IH]; simpl; [discriminate|].
  destruct (keq k' k); simpl; auto.
  intros Hin. now rewrite IH.
Qed.

Lemma keys_dict_set_new k v d :
  dict_in k d = false -> keys (dict_set k v d) = (keys d ++ [k])%list.
Proof.
  unfold dict_in, keys. induction d as [|[k' v'] t IH]; simpl; auto.
  destruct (keq k' k); simpl; [discriminate|].
  intros Hin. now rewrite IH.
Qed.

Lemma dict_get_in_keys k d : In k (keys d) <-> dict_in k d = true.
Proof.
  unfold dict_in, keys. induction d as [|[k' v'] t IH]; simpl.
  - split; [tauto | discriminate].
  - destruct (keq_spec k' k) as [->|Hne].
    + split; auto.
    + rewrite <- IH. split; [intros [Hk|Hk]; [contradiction|auto] | auto].
Qed.

Lemma dict_wf_set k v d : dict_wf d -> dict_wf (dict_set k v d).
Proof.
  unfold dict_wf. intros Hwf.
  destruct (dict_in k d) eqn:Hin.
  - now rewrite keys_dict_set_in.
  - rewrite keys_dict_set_new by assumption.
    apply NoDup_app; auto.
    + constructor; [intros [] | constructor].
    + intros x Hx [<-|[]]. apply dict_get_in_keys in Hx. congruence.
Qed.

End DictFacts.

(** ** The document *)

Lemma dict_in_ensure_guild g data : dict_in g (ensure_guild g data) = true.
Proof.
  unfold ensure_guild. destruct (dict_in g data) eqn:Hin; auto.
  unfold dict_in. now rewrite dict_get_set_same.
Qed.

Lemma dict_get_ensure_guild_other g g0 data :
  g0 <> g -> dict_get g0 (ensure_guild g data) = dict_get g0 data.
Proof.
  intros Hne. unfold ensure_guild. destruct (dict_in g data); auto.
  now apply dict_get_set_other.
Qed.

Lemma guild_timezones_ensure_guild g data :
  guild_timezones g (ensure_guild g data) = guild_timezones g data.
Proof.
  unfold ensure_guild, guild_timezones, dict_in.
  destruct (dict_get g data) eqn:Hg; simpl.
  - now rewrite Hg.
  - now rewrite dict_get_set_same.
Qed.

Lemma doc_time_message_ensure_guild g data :
  doc_time_message g (ensure_guild g data) = doc_time_message g data.
Proof.
  unfold ensure_guild, doc_time_message, dict_in.
  destruct (dict_get g data) eqn:Hg; simpl.
  - now rewrite Hg.
  - now rewrite dict_get_set_same.
Qed.

Lemma guild_timezones_set_user g u z data :
  dict_in g data = true ->
  guild_timezones g (set_user_timezone g u z data)
  = dict_set u z (guild_timezones g data).
Proof.
  unfold dict_in, guild_timezones, set_user_timezone.
  destruct (dict_get g data) eqn:Hg; [|discriminate].
  intros _. now rewrite dict_get_set_same.
Qed.

Lemma dict_in_set_user g u z data :
  dict_in g data = true -> dict_in g (set_user_timezone g u z data) = true.
Proof.
  unfold dict_in at 1, set_user_timezone.
  destruct (dict_get g data) eqn:Hg; [|discriminate].
  intros _. unfold dict_in. now rewrite dict_get_set_same.
Qed.

Lemma dict_get_set_user_other g g0 u z data :
  g0 <> g -> dict_get g0 (set_user_timezone g u z data) = dict_get g0 data.
Proof.
  intros Hne. unfold set_user_timezone. destruct (dict_get g data); auto.
  now apply dict_get_set_other.
Qed.

Lemma doc_time_message_set_user g u z data :
  doc_time_message g (set_user_timezone g u z data) = doc_time_message g data.
Proof.
  unfold doc_time_message, set_user_timezone.
  destruct (dict_get g data) eqn:Hg; [|now rewrite Hg].
  now rewrite dict_get_set_same.
Qed.

Lemma guild_timezones_del_user g u data :
  guild_timezones g (del_user_timezone g u data)
  = dict_del u (guild_timezones g data).
Proof.
  unfold guild_timezones, del_user_timezone.
  destruct (dict_get g data) eqn:Hg; [|now rewrite Hg].
  now rewrite dict_get_set_same.
Qed.

Lemma dict_in_del_user g g0 u data :
  dict_in g0 (del_user_timezone g u data) = dict_in g0 data.
Proof.
  unfold del_user_timezone, dict_in.
  destruct (dict_get g data) eqn:Hg; auto.
  destruct (string_dec g0 g) as [->|Hne].
  - now rewrite dict_get_set_same, Hg.
  - now rewrite dict_get_set_other.
Qed.

Lemma del_user_timezone_absent g u data :
  dict_get u (guild_timezones g data) = None ->
  del_user_timezone g u data = data.
Proof.
  unfold guild_timezones, del_user_timezone.
  destruct (dict_get g data) as [gd|] eqn:Hg; auto.
  intros Hu. rewrite (dict_del_absent _ _ Hu).
  destruct gd; simpl. now apply dict_set_same_value.
Qed.

Lemma doc_time_message_del_message g data :
  doc_time_message g (del_guild_time_message g data) = None.
Proof.
  unfold doc_time_message, del_guild_time_message.
  destruct (dict_get g data) eqn:Hg; [|now rewrite Hg].
  now rewrite dict_get_set_same.
Qed.

(** ** Running programs *)

(** Worlds are compared field by field, histories up to associativity. *)
Ltac world_eq Hfree :=
  unfold after, observe, set_locked, set_file, set_cache, tick_clock; simpl;
  rewrite <- ?app_assoc, ?Hfree; simpl; try reflexivity.

Section RunFacts.
Context {E : Externals} (P : platform).

Lemma run_bind {A B : Type} (p : prog A) (f : A -> prog B) (w : world) :
  run P (bind p f) w =
  match run P p w with
  | (Returned a, w') => run P (f a) w'
  | (Raised e, w') => (Raised e, w')
  | (Blocked, w') => (Blocked, w')
  end.
Proof.
  revert w. induction p as [a|e|X e k IH]; intros w; simpl; auto.
  destruct (handle P e w) as [[x w']|]; auto.
Qed.

Lemma run_try_except {A : Type} (p : prog A) (h : exn -> prog A) (w : world) :
  run P (try_except p h) w =
  match run P p w with
  | (Raised e, w') => run P (h e) w'
  | r => r
  end.
Proof.
  revert w. induction p as [a|e|X e k IH]; intros w; simpl; auto.
  destruct (handle P e w) as [[x w']|]; auto.
Qed.

(** Reading the file under the lock. *)
Lemma run_locked_load (w : world) :
  locked w = false ->
  run P (with_lock (trigger JsonLoad)) w
  = (Returned (file w), after [EvAcquire; EvLoad; EvRelease] w).
Proof.
  intros Hfree. unfold with_lock, try_finally, trigger; simpl.
  rewrite Hfree; simpl. world_eq Hfree.
Qed.

Lemma run_save_timezone (c m : Z) (z : string) (w : world) :
  locked w = false ->
  run P (save_timezone c m z) w
  = (Returned tt,
     let d := set_user_timezone (str c) (str m) z
                (ensure_guild (str c) (file w)) in
     after [EvAcquire; EvLoad; EvDump d; EvRelease] (set_file d w)).
Proof.
  intros Hfree. unfold save_timezone, with_lock, try_finally, trigger; simpl.
  rewrite Hfree; simpl. world_eq Hfree.
Qed.

Lemma run_remove_timezone (c m : Z) (w : world) :
  locked w = false ->
  run P (remove_timezone c m) w
  = (Returned tt,
     if dict_in (str c) (file w)
        && dict_in (str m) (guild_timezones (str c) (file w))
     then
       let d := del_user_timezone (str c) (str m) (file w) in
       after [EvAcquire; EvLoad; EvDump d; EvRelease] (set_file d w)
     else after [EvAcquire; EvLoad; EvRelease] w).
Proof.
  intros Hfree. unfold remove_timezone, with_lock, try_finally, trigger; simpl.
  rewrite Hfree; simpl.
  destruct (dict_in (str c) (file w)
            && dict_in (str m) (guild_timezones (str c) (file w)));
    simpl; world_eq Hfree.
Qed.

End RunFacts.

(** ** The timezone store *)

Section Store.
Context {E : Externals} (P : platform).

Lemma run_get_timezone_user (c m : Z) (w : world) :
  locked w = false ->
  run P (get_timezone c (Some m)) w
  = let w1 := after [EvAcquire; EvLoad; EvRelease] w in
    if negb (dict_in (str c) (file w)) then (Returned None, w1)
    else
      match dict_get (str m) (guild_timezones (str c) (file w)) with
      | Some z =>
          if truthy z then
            match pytz_timezone z with
            | Some tz => (Returned (Some tz), w1)
            | None =>
                let d := del_user_timezone (str c) (str m) (file w) in
                (Returned None,
                 after [EvAcquire; EvLoad; EvRelease;
                        EvLog (InvalidTimezoneWarning z (str m));
                        EvAcquire; EvDump d; EvRelease] (set_file d w))
            end
          else (Returned None, w1)
      | None => (Returned None, w1)
      end.
Proof.
  intros Hfree. unfold get_timezone.
  rewrite run_bind, run_locked_load by assumption. simpl.
  destruct (dict_in (str c) (file w)); simpl; auto.
  destruct (dict_get (str m) (guild_timezones (str c) (file w))) as [z|];
    simpl; auto.
  destruct (truthy z); simpl; auto.
  destruct (pytz_timezone z) as [tz|]; simpl; auto.
  unfold with_lock, try_finally, trigger; simpl.
  rewrite Hfree; simpl. f_equal. world_eq Hfree.
Qed.

Lemma valid_timezone_truthy (z : string) (tz : tzinfo) :
  pytz_timezone z = Some tz -> truthy z = true.
Proof.
  destruct z; simpl; auto.
  rewrite pytz_timezone_empty. discriminate.
Qed.

(** What [get_timezone] answers on a document that holds [z] for the user. *)
Lemma get_timezone_of_stored (c m : Z) (z : string) (tz : tzinfo) (w : world) :
  locked w = false ->
  dict_in (str c) (file w) = true ->
  dict_get (str m) (guild_timezones (str c) (file w)) = Some z ->
  pytz_timezone z = Some tz ->
  run P (get_timezone c (Some m)) w
  = (Returned (Some tz), after [EvAcquire; EvLoad; EvRelease] w).
Proof.
  intros Hfree Hin Hget Hz.
  rewrite run_get_timezone_user by assumption. simpl.
  now rewrite Hin, Hget, (valid_timezone_truthy _ _ Hz), Hz.
Qed.

Lemma saved_document_holds (c m : Z) (z : string) (d : document) :
  let d' := set_user_timezone (str c) (str m) z (ensure_guild (str c) d) in
  dict_in (str c) d' = true
  /\ dict_get (str m) (guild_timezones (str c) d') = Some z.
Proof.
  simpl. split.
  - apply dict_in_set_user, dict_in_ensure_guild.
  - rewrite guild_timezones_set_user by apply dict_in_ensure_guild.
    apply dict_get_set_same.
Qed.

Lemma run_save_then_get (c m : Z) (z : string) (tz : tzinfo) (w : world) :
  locked w = false ->
  pytz_timezone z = Some tz ->
  fst (run P (save_timezone c m z ;; get_timezone c (Some m)) w)
  = Returned (Some tz).
Proof.
  intros Hfree Hz.
  rewrite run_bind, run_save_timezone by assumption.
  destruct (saved_document_holds c m z (file w)) as [Hin Hget].
  cbv beta iota zeta.
  rewrite (get_timezone_of_stored c m z tz); simpl; auto.
Qed.

(** C1.  For every identifier [z] that [pytz] knows, every guild [c] and
    user [m], and whatever the file held before: [save_timezone(c, m, z)]
    followed by [get_timezone(c, m)] returns the timezone of [z], not
    [None]; the same holds when another identifier [z0] had been saved for
    [(c, m)] just before, so the later save overwrites the earlier one; and
    the file then holds [z] under the user's key. *)
Theorem save_timezone_then_get_timezone
    (d : document) (cache : dict Z message) (c m : Z) (z : string)
    (tz : tzinfo) :
  pytz_timezone z = Some tz ->
  fst (run P (save_timezone c m z ;; get_timezone c (Some m)) (idle d cache))
  = Returned (Some tz)
  /\ (forall z0 : string,
        fst (run P (save_timezone c m z0 ;; save_timezone c m z ;;
                    get_timezone c (Some m)) (idle d cache))
        = Returned (Some tz))
  /\ dict_get (str m)
       (guild_timezones (str c)
          (file (snd (run P (save_timezone c m z) (idle d cache)))))
     = Some z.
Proof.
  intros Hz. split; [|split].
  - now apply run_save_then_get.
  - intros z0.
    rewrite run_bind, run_save_timezone by reflexivity.
    now apply run_save_then_get.
  - rewrite run_save_timezone by reflexivity. simpl.
    apply saved_document_holds.
Qed.

(** The file after [remove_timezone(c, m)]. *)
Lemma file_after_remove_timezone (c m : Z) (w : world) :
  locked w = false ->
  file (snd (run P (remove_timezone c m) w))
  = del_user_timezone (str c) (str m) (file w).
Proof.
  intros Hfree. rewrite run_remove_timezone by assumption. simpl.
  destruct (dict_in (str c) (file w)) eqn:Hc; simpl.
  - destruct (dict_in (str m) (guild_timezones (str c) (file w))) eqn:Hm;
      simpl; auto.
    symmetry. apply del_user_timezone_absent. now apply dict_in_false.
  - symmetry. apply del_user_timezone_absent.
    apply dict_in_false in Hc. unfold guild_timezones. now rewrite Hc.
Qed.

Lemma locked_after_remove_timezone (c m : Z) (w : world) :
  locked w = false -> locked (snd (run P (remove_timezone c m) w)) = false.
Proof.
  intros Hfree. rewrite run_remove_timezone by assumption. simpl.
  now destruct (dict_in (str c) (file w)
                && dict_in (str m) (guild_timezones (str c) (file w))).
Qed.

Lemma del_user_timezone_twice (g u : string) (data : document) :
  del_user_timezone g u (del_user_timezone g u data)
  = del_user_timezone g u data.
Proof.
  apply del_user_timezone_absent.
  rewrite guild_timezones_del_user. apply dict_get_del_same.
Qed.

(** C7.  For every guild [c] and user [m] and whatever the file holds:
    [remove_timezone(c, m)] followed by [get_timezone(c, m)] returns [None];
    two calls of [remove_timezone(c, m)] return without error and leave the
    file as one call does; and when the file has no record for [(c, m)] the
    call returns without error, writes nothing and leaves the file as it
    was. *)
Theorem remove_timezone_then_get_timezone
    (d : document) (cache : dict Z message) (c m : Z) :
  fst (run P (remove_timezone c m ;; get_timezone c (Some m)) (idle d cache))
  = Returned None
  /\ (fst (run P (remove_timezone c m ;; remove_timezone c m) (idle d cache))
      = Returned tt
      /\ file (snd (run P (remove_timezone c m ;; remove_timezone c m)
                      (idle d cache)))
         = file (snd (run P (remove_timezone c m) (idle d cache))))
  /\ (dict_get (str m) (guild_timezones (str c) d) = None ->
      run P (remove_timezone c m) (idle d cache)
      = (Returned tt, after [EvAcquire; EvLoad; EvRelease] (idle d cache))).
Proof.
  split; [|split].
  - rewrite run_bind.
    pose proof (file_after_remove_timezone c m (idle d cache) eq_refl) as Hfile.
    pose proof (locked_after_remove_timezone c m (idle d cache) eq_refl) as Hlock.
    destruct (run P (remove_timezone c m) (idle d cache)) as [o w'] eqn:Hrun.
    assert (Ho : o = Returned tt).
    { rewrite run_remove_timezone in Hrun by reflexivity. congruence. }
    subst o. simpl in Hfile, Hlock.
    rewrite run_get_timezone_user by assumption. simpl.
    rewrite Hfile, dict_in_del_user, guild_timezones_del_user.
    rewrite dict_get_del_same.
    now destruct (dict_in (str c) d).
  - rewrite run_bind.
    pose proof (file_after_remove_timezone c m (idle d cache) eq_refl) as Hfile.
    pose proof (locked_after_remove_timezone c m (idle d cache) eq_refl) as Hlock.
    destruct (run P (remove_timezone c m) (idle d cache)) as [o w'] eqn:Hrun.
    assert (Ho : o = Returned tt).
    { rewrite run_remove_timezone in Hrun by reflexivity. congruence. }
    subst o. simpl in Hfile, Hlock. split.
    + now rewrite run_remove_timezone.
    + rewrite file_after_remove_timezone by assumption. simpl.
      rewrite Hfile. apply del_user_timezone_twice.
  - intros Habsent. rewrite run_remove_timezone by reflexivity. simpl.
    apply dict_in_false in Habsent. rewrite Habsent.
    now rewrite andb_false_r.
Qed.

(** C9.  For every document, [save_timezone(c, m, z)] leaves unchanged the
    value of every guild key other than [str(c)], the timezone of every user
    key of [c] other than [str(m)], and the ["time_message"] of [c]; in
    particular the entries of every other guild id and of every other user
    id of [c].  The message cache is not touched. *)
Theorem save_timezone_frame
    (d : document) (cache : dict Z message) (c m : Z) (z : string) :
  let w' := snd (run P (save_timezone c m z) (idle d cache)) in
  (forall g : string, g <> str c -> dict_get g (file w') = dict_get g d)
  /\ (forall u : string, u <> str m ->
        dict_get u (guild_timezones (str c) (file w'))
        = dict_get u (guild_timezones (str c) d))
  /\ doc_time_message (str c) (file w') = doc_time_message (str c) d
  /\ (forall c' : Z, c' <> c ->
        dict_get (str c') (file w') = dict_get (str c') d)
  /\ (forall m' : Z, m' <> m ->
        dict_get (str m') (guild_timezones (str c) (file w'))
        = dict_get (str m') (guild_timezones (str c) d))
  /\ time_message_cache w' = cache.
Proof.
  rewrite run_save_timezone by reflexivity. simpl.
  assert (Hg : forall g, g <> str c ->
            dict_get g (set_user_timezone (str c) (str m) z
                          (ensure_guild (str c) d)) = dict_get g d).
  { intros g Hne. rewrite dict_get_set_user_other by assumption.
    now apply dict_get_ensure_guild_other. }
  assert (Hu : forall u, u <> str m ->
            dict_get u (guild_timezones (str c)
                          (set_user_timezone (str c) (str m) z
                             (ensure_guild (str c) d)))
            = dict_get u (guild_timezones (str c) d)).
  { intros u Hne.
    rewrite guild_timezones_set_user by apply dict_in_ensure_guild.
    rewrite dict_get_set_other by assumption.
    now rewrite guild_timezones_ensure_guild. }
  repeat split; auto.
  - rewrite doc_time_message_set_user. apply doc_time_message_ensure_guild.
  - intros c' Hne. apply Hg. intros Heq. now apply Hne, str_inj.
  - intros m' Hne. apply Hu. intros Heq. now apply Hne, str_inj.
Qed.

End Store.

(** ** The mapping of a whole guild *)

Section AllTimezones.
Context {E : Externals} (P : platform).

Lemma dict_del_shorter {K V : Type} `{EqKey K} (k : K) (d : dict K V) :
  (List.length (dict_del k d) <= List.length d)%nat.
Proof.
  induction d as [|[k' v'] t IH]; simpl; auto.
  destruct (keq k' k); simpl; lia.
Qed.

Lemma dict_del_strictly_shorter {K V : Type} `{EqKey K} (k : K) (d : dict K V) :
  dict_in k d = true -> (List.length (dict_del k d) < List.length d)%nat.
Proof.
  unfold dict_in. induction d as [|[k' v'] t IH]; simpl; [discriminate|].
  destruct (keq k' k); simpl.
  - intros _. pose proof (dict_del_shorter k t). lia.
  - intros Hin. specialize (IH Hin). lia.
Qed.

Lemma in_items_dict_in {K V : Type} `{EqKey K} (k : K) (v : V) (d : dict K V) :
  In (k, v) d -> dict_in k d = true.
Proof.
  intros Hin. apply dict_get_in_keys. unfold keys.
  change k with (fst (k, v)). now apply in_map.
Qed.

(** The iterator's size test, when it fails. *)
Lemma get_timezone_loop_size_changed g di_used items data tzs (w : world) :
  List.length (guild_timezones g data) <> di_used ->
  run P (get_timezone_loop g di_used items data tzs) w
  = (Raised RuntimeError, w).
Proof.
  intros Hsize. apply Nat.eqb_neq in Hsize.
  destruct items as [|[u z] rest]; simpl; now rewrite Hsize.
Qed.

(** While every item is accepted the loop only fills [timezones]. *)
Lemma get_timezone_loop_all_ok g di_used items data tzs (w : world) :
  Forall entry_ok items ->
  List.length (guild_timezones g data) = di_used ->
  exists tzs',
    run P (get_timezone_loop g di_used items data tzs) w = (Returned tzs', w)
    /\ (dict_wf tzs -> dict_wf tzs').
Proof.
  intros Hok Hsize. apply Nat.eqb_eq in Hsize.
  revert tzs. induction Hok as [|[u z] rest [[tz Htz] [n Hn]] Hrest IH];
    intros tzs; simpl in *; rewrite Hsize; simpl.
  - eauto.
  - rewrite Htz, Hn.
    destruct (IH (dict_set n tz tzs)) as [tzs' [Hrun Hwf]].
    exists tzs'. split; auto.
    intros Hw. now apply Hwf, dict_wf_set.
Qed.

(** The first item whose identifier [pytz] rejects: the item is deleted,
    the document is written, and the next step of the iterator raises. *)
Lemma get_timezone_loop_stale g di_used pre u z post data tzs (w : world) :
  locked w = false ->
  Forall entry_ok pre ->
  pytz_timezone z = None ->
  dict_in u (guild_timezones g data) = true ->
  List.length (guild_timezones g data) = di_used ->
  run P (get_timezone_loop g di_used (pre ++ (u, z) :: post) data tzs) w
  = let d := del_user_timezone g u data in
    (Raised RuntimeError,
     after [EvLog (InvalidTimezoneWarning z u); EvAcquire; EvDump d; EvRelease]
           (set_file d w)).
Proof.
  intros Hfree Hok Hz Hin Hsize.
  pose proof Hsize as Hsizeb. apply Nat.eqb_eq in Hsizeb.
  revert tzs. induction Hok as [|[u0 z0] rest [[tz Htz] [n Hn]] Hrest IH];
    intros tzs; simpl in *; rewrite Hsizeb; simpl.
  - rewrite Hz. simpl. rewrite Hfree. simpl.
    rewrite get_timezone_loop_size_changed.
    + f_equal. world_eq Hfree.
    + rewrite guild_timezones_del_user.
      pose proof (dict_del_strictly_shorter u _ Hin). lia.
  - rewrite Htz, Hn. apply IH.
Qed.

Lemma run_get_timezone_all_absent (c : Z) (w : world) :
  locked w = false ->
  dict_in (str c) (file w) = false ->
  run P (get_timezone c None) w
  = (Returned [], after [EvAcquire; EvLoad; EvRelease] w).
Proof.
  intros Hfree Habsent. unfold get_timezone.
  rewrite run_bind, run_locked_load by assumption. simpl.
  now rewrite Habsent.
Qed.

Lemma run_get_timezone_all_present (c : Z) (w : world) :
  locked w = false ->
  dict_in (str c) (file w) = true ->
  run P (get_timezone c None) w
  = run P (get_timezone_loop (str c)
             (List.length (guild_timezones (str c) (file w)))
             (guild_timezones (str c) (file w)) (file w) [])
          (after [EvAcquire; EvLoad; EvRelease] w).
Proof.
  intros Hfree Hin. unfold get_timezone.
  rewrite run_bind, run_locked_load by assumption. simpl.
  now rewrite Hin.
Qed.

(** With accepted items only, [get_timezone(c)] returns a mapping and
    leaves the file alone. *)
Lemma run_get_timezone_all_ok (c : Z) (w : world) :
  locked w = false ->
  Forall entry_ok (guild_timezones (str c) (file w)) ->
  exists tzs : dict Z tzinfo,
    run P (get_timezone c None) w
    = (Returned tzs, after [EvAcquire; EvLoad; EvRelease] w)
    /\ dict_wf tzs.
Proof.
  intros Hfree Hok.
  destruct (dict_in (str c) (file w)) eqn:Hin.
  - rewrite run_get_timezone_all_present by assumption.
    destruct (get_timezone_loop_all_ok (str c) _ _ (file w) []
                (after [EvAcquire; EvLoad; EvRelease] w) Hok eq_refl)
      as [tzs [Hrun Hwf]].
    exists tzs. split; auto. apply Hwf. constructor.
  - exists []. split; [now apply run_get_timezone_all_absent | constructor].
Qed.

(** With an identifier that [pytz] rejects among the items, the first such
    item is removed from the file and [get_timezone(c)] raises. *)
Lemma run_get_timezone_all_stale (c : Z) pre u z post (w : world) :
  locked w = false ->
  guild_timezones (str c) (file w) = (pre ++ (u, z) :: post)%list ->
  Forall entry_ok pre ->
  pytz_timezone z = None ->
  run P (get_timezone c None) w
  = let d := del_user_timezone (str c) u (file w) in
    (Raised RuntimeError,
     after [EvAcquire; EvLoad; EvRelease;
            EvLog (InvalidTimezoneWarning z u);
            EvAcquire; EvDump d; EvRelease] (set_file d w)).
Proof.
  intros Hfree Hitems Hok Hz.
  assert (Hu : dict_in u (guild_timezones (str c) (file w)) = true).
  { apply (in_items_dict_in u z). rewrite Hitems.
    apply in_or_app. right. now left. }
  assert (Hin : dict_in (str c) (file w) = true).
  { unfold guild_timezones in Hitems. unfold dict_in.
    destruct (dict_get (str c) (file w)); auto.
    now destruct pre. }
  rewrite run_get_timezone_all_present by assumption.
  rewrite Hitems at 2.
  rewrite get_timezone_loop_stale; auto.
  simpl. f_equal. world_eq Hfree.
Qed.

End AllTimezones.

(** C3.  The file holds, for guild 1, the identifier ["mars/phobos"], which
    [pytz] does not know, between two known ones.  [get_timezone(1)] removes
    that item from the file and then raises [RuntimeError] to its caller:
    the loop deletes from the dict it iterates over.  The safety the claim
    states is violated. *)
Theorem get_timezone_all_raises_on_stale_identifier :
  let d := [("1", {| timezones := [("10", "utc"); ("11", "mars/phobos");
                                   ("12", "etc/gmt")];
                     time_message := None |})] in
  let r := run sample_platform (get_timezone 1 None) (idle d []) in
  fst r = Raised RuntimeError
  /\ file (snd r)
     = [("1", {| timezones := [("10", "utc"); ("12", "etc/gmt")];
                 time_message := None |})].
Proof. vm_compute. split; reflexivity. Qed.

(** ** The display *)

Section Display.
Context {E : Externals} (P : platform).

Lemma dict_set_nonempty {K V : Type} `{EqKey K} (k : K) (v : V) (d : dict K V) :
  dict_set k v d <> [].
Proof.
  destruct d as [|[k' v'] t]; simpl; [discriminate|].
  destruct (keq k' k); discriminate.
Qed.

Lemma add_user_nonempty time_now acc item : add_user time_now acc item <> [].
Proof.
  unfold add_user.
  destruct (dict_get (naive_local time_now (snd item)) acc);
    apply dict_set_nonempty.
Qed.

Lemma users_by_timezones_nonempty time_now item rest :
  users_by_timezones time_now (item :: rest) <> [].
Proof.
  unfold users_by_timezones. simpl.
  generalize (add_user_nonempty time_now [] item).
  generalize (add_user time_now [] item). clear item.
  induction rest as [|it rest IH]; intros acc Hacc; simpl; auto.
  apply IH, add_user_nonempty.
Qed.

Lemma insert_sorted_nonempty {A : Type} (leb : A -> A -> bool) x l :
  insert_sorted leb x l <> [].
Proof.
  destruct l as [|y t]; simpl; [discriminate|].
  destruct (leb x y); discriminate.
Qed.

Lemma sorted_nonempty {A : Type} (leb : A -> A -> bool) (l : list A) :
  l <> [] -> sorted leb l <> [].
Proof.
  destruct l as [|x t]; [congruence|].
  intros _. simpl. apply insert_sorted_nonempty.
Qed.

(** Text that starts with a star keeps it as groups are appended. *)
Lemma groups_text_starts_with_star groups (text : string) :
  exists rest,
    fold_left (fun text group => text ++ group_text group) groups
              (String "*" text)
    = String "*" rest.
Proof.
  revert text. induction groups as [|g gs IH]; intros text; simpl; eauto.
Qed.

Lemma time_text_nonempty_mapping time_now item rest :
  exists text, time_text time_now (item :: rest) = String "*" text.
Proof.
  unfold time_text.
  destruct (users_by_timezones_sorted time_now (item :: rest))
    as [|g gs] eqn:Hsorted.
  - exfalso. revert Hsorted. apply sorted_nonempty.
    apply users_by_timezones_nonempty.
  - assert (Hfirst : exists t, EmptyString ++ group_text g = String "*" t).
    { unfold group_text. simpl. eauto. }
    destruct Hfirst as [t Ht].
    cbn [fold_left]. rewrite Ht.
    destruct (groups_text_starts_with_star gs t) as [text Htext].
    rewrite Htext. simpl. eauto.
Qed.

Lemma time_text_empty_mapping time_now : time_text time_now [] = no_one_text.
Proof. reflexivity. Qed.

(** C8.  The text of the display is the sentence "No one has set their
    timezone." exactly when the mapping is empty.  For a guild with no
    stored timezone (no entry in the file, or an entry with no user),
    [get_timezone(c)] returns the empty mapping, raises nothing and writes
    nothing, and the embed made from it carries that sentence. *)
Theorem empty_mapping_display
    (time_now : datetime) (tzs : dict Z tzinfo)
    (d : document) (cache : dict Z message) (c : Z) :
  (time_text time_now tzs = no_one_text <-> tzs = [])
  /\ (guild_timezones (str c) d = [] ->
      run P (get_timezone c None) (idle d cache)
      = (Returned [], after [EvAcquire; EvLoad; EvRelease] (idle d cache))
      /\ fst (run P (create_time_message_embed c false) (idle d cache))
         = Returned {| title := "What's the time?";
                       description := no_one_text |}).
Proof.
  split.
  - split.
    + destruct tzs as [|item rest]; auto.
      destruct (time_text_nonempty_mapping time_now item rest) as [text Ht].
      rewrite Ht. discriminate.
    + intros ->. apply time_text_empty_mapping.
  - intros Hnone.
    assert (Hget : run P (get_timezone c None) (idle d cache)
                   = (Returned [],
                      after [EvAcquire; EvLoad; EvRelease] (idle d cache))).
    { destruct (dict_in (str c) d) eqn:Hin.
      - rewrite run_get_timezone_all_present by auto.
        simpl file. rewrite Hnone. simpl. rewrite Hnone. reflexivity.
      - now apply run_get_timezone_all_absent. }
    split; auto.
    unfold create_time_message_embed. rewrite run_bind, Hget. reflexivity.
Qed.

End Display.

(** ** Sorting *)

Section Sorting.
Context {A : Type} (leb : A -> A -> bool).

Lemma insert_sorted_perm (x : A) (l : list A) :
  Permutation (insert_sorted leb x l) (x :: l).
Proof.
  induction l as [|y t IH]; simpl; auto.
  destruct (leb x y); auto.
  rewrite IH. apply perm_swap.
Qed.

Lemma sorted_perm (l : list A) : Permutation (sorted leb l) l.
Proof.
  induction l as [|x t IH]; simpl; auto.
  rewrite insert_sorted_perm. now constructor.
Qed.

Hypothesis leb_total : forall x y, leb x y = true \/ leb y x = true.
Hypothesis leb_trans :
  forall x y z, leb x y = true -> leb y z = true -> leb x z = true.

Lemma insert_sorted_ordered (x : A) (l : list A) :
  StronglySorted (fun a b => leb a b = true) l ->
  StronglySorted (fun a b => leb a b = true) (insert_sorted leb x l).
Proof.
  induction 1 as [|y t Ht IH Hy]; simpl.
  - repeat constructor.
  - destruct (leb x y) eqn:Hxy.
    + constructor; [now constructor|].
      constructor; auto.
      eapply Forall_impl; [|exact Hy]. intros a Ha. eauto.
    + constructor; auto.
      destruct (leb_total x y) as [Hc|Hc]; [congruence|].
      eapply Permutation_Forall; [symmetry; apply insert_sorted_perm|].
      constructor; auto.
Qed.

Lemma sorted_ordered (l : list A) :
  StronglySorted (fun a b => leb a b = true) (sorted leb l).
Proof.
  induction l as [|x t IH]; simpl; [constructor|].
  now apply insert_sorted_ordered.
Qed.

End Sorting.

(** ** The grouping of the display *)

Section Grouping.
Context {E : Externals}.

Lemma dict_get_in {K V : Type} `{EqKey K} (k : K) (v : V) (d : dict K V) :
  dict_get k d = Some v -> In (k, v) d.
Proof.
  induction d as [|[k' v'] t IH]; simpl; [discriminate|].
  destruct (keq_spec k' k) as [->|Hne].
  - intros [= ->]. now left.
  - intros Hget. right. auto.
Qed.

Lemma in_dict_get {K V : Type} `{EqKey K} (k : K) (v : V) (d : dict K V) :
  dict_wf d -> In (k, v) d -> dict_get k d = Some v.
Proof.
  unfold dict_wf, keys. induction d as [|[k' v'] t IH]; simpl; [tauto|].
  intros Hwf [Heq|Hin].
  - injection Heq as -> ->. now rewrite keq_refl.
  - inversion Hwf as [|? ? Hnotin Hwf']; subst.
    destruct (keq_spec k' k) as [->|Hne]; auto.
    exfalso. apply Hnotin. change k with (fst (k, v)). now apply in_map.
Qed.

Lemma grouped_nil time_now : grouped time_now [] [].
Proof.
  split; [constructor|]. split.
  - intros k users Hget. discriminate.
  - intros item [].
Qed.

Lemma add_user_grouped time_now seen acc item :
  grouped time_now seen acc ->
  grouped time_now (seen ++ [item]) (add_user time_now acc item).
Proof.
  intros (Hwf & Hkey & Hall). unfold add_user.
  set (k0 := naive_local time_now (snd item)).
  destruct (dict_get k0 acc) as [users|] eqn:Hk0.
  - split; [now apply dict_wf_set|]. split.
    + intros k us Hget it Hit.
      destruct (Z.eq_dec k k0) as [->|Hne].
      * rewrite dict_get_set_same in Hget. injection Hget as <-.
        apply in_app_or in Hit. destruct Hit as [Hit|[<-|[]]].
        -- destruct (Hkey _ _ Hk0 _ Hit). split; auto.
           apply in_or_app. now left.
        -- split; auto. apply in_or_app. right. now left.
      * rewrite dict_get_set_other in Hget by assumption.
        destruct (Hkey _ _ Hget _ Hit). split; auto.
        apply in_or_app. now left.
    + intros it Hit. apply in_app_or in Hit. destruct Hit as [Hit|[<-|[]]].
      * destruct (Hall _ Hit) as (us & Hus & Hin).
        destruct (Z.eq_dec (naive_local time_now (snd it)) k0) as [Heq|Hne].
        -- rewrite Heq in *. rewrite dict_get_set_same.
           exists (users ++ [item])%list. split; auto.
           apply in_or_app. left. congruence.
        -- rewrite dict_get_set_other by assumption. eauto.
      * fold k0. rewrite dict_get_set_same.
        exists (users ++ [item])%list. split; auto.
        apply in_or_app. right. now left.
  - split; [now apply dict_wf_set|]. split.
    + intros k us Hget it Hit.
      destruct (Z.eq_dec k k0) as [->|Hne].
      * rewrite dict_get_set_same in Hget. injection Hget as <-.
        destruct Hit as [<-|[]]. split; auto.
        apply in_or_app. right. now left.
      * rewrite dict_get_set_other in Hget by assumption.
        destruct (Hkey _ _ Hget _ Hit). split; auto.
        apply in_or_app. now left.
    + intros it Hit. apply in_app_or in Hit. destruct Hit as [Hit|[<-|[]]].
      * destruct (Hall _ Hit) as (us & Hus & Hin).
        destruct (Z.eq_dec (naive_local time_now (snd it)) k0) as [Heq|Hne].
        -- rewrite Heq in Hus. congruence.
        -- rewrite dict_get_set_other by assumption. eauto.
      * fold k0. rewrite dict_get_set_same.
        exists [item]. split; auto. now left.
Qed.

Lemma fold_add_user_grouped time_now items seen acc :
  grouped time_now seen acc ->
  grouped time_now (seen ++ items) (fold_left (add_user time_now) items acc).
Proof.
  revert seen acc. induction items as [|item rest IH]; intros seen acc Hg; simpl.
  - now rewrite app_nil_r.
  - replace (seen ++ item :: rest)%list with ((seen ++ [item]) ++ rest)%list
      by now rewrite <- app_assoc.
    apply IH. now apply add_user_grouped.
Qed.

Lemma users_by_timezones_grouped time_now tzs :
  grouped time_now tzs (users_by_timezones time_now tzs).
Proof. apply (fold_add_user_grouped time_now tzs [] []), grouped_nil. Qed.

Lemma group_key_leb_total (x y : Z * list (Z * tzinfo)) :
  group_key_leb x y = true \/ group_key_leb y x = true.
Proof.
  unfold group_key_leb.
  destruct (Z.ltb_spec (fst x) (fst y)); simpl; auto.
  destruct (Z.ltb_spec (fst y) (fst x)); simpl; auto.
  assert (Heq : fst x = fst y) by lia.
  rewrite Heq, Z.eqb_refl; simpl.
  destruct (Nat.leb_spec (List.length (snd x)) (List.length (snd y))); auto.
  right. apply Nat.leb_le. lia.
Qed.

Lemma group_key_leb_trans (x y z : Z * list (Z * tzinfo)) :
  group_key_leb x y = true -> group_key_leb y z = true ->
  group_key_leb x z = true.
Proof.
  unfold group_key_leb. intros Hxy Hyz.
  apply orb_true_iff in Hxy. apply orb_true_iff in Hyz.
  apply orb_true_iff.
  rewrite !andb_true_iff, !Z.ltb_lt, !Z.eqb_eq, !Nat.leb_le in *.
  lia.
Qed.

Lemma group_key_leb_strict (x y : Z * list (Z * tzinfo)) :
  group_key_leb x y = true -> fst x <> fst y -> fst x < fst y.
Proof.
  unfold group_key_leb. intros Hxy Hne.
  apply orb_true_iff in Hxy.
  rewrite andb_true_iff, Z.ltb_lt, Z.eqb_eq in Hxy. lia.
Qed.

Lemma ordered_distinct_strict (l : list (Z * list (Z * tzinfo))) :
  StronglySorted (fun a b => group_key_leb a b = true) l ->
  NoDup (map fst l) ->
  StronglySorted (fun a b => fst a < fst b) l.
Proof.
  induction 1 as [|x t Ht IH Hx]; intros Hnd; [constructor|].
  simpl in Hnd. inversion Hnd as [|? ? Hnotin Hnd']; subst.
  constructor; auto.
  rewrite Forall_forall in *. intros y Hy.
  apply group_key_leb_strict; auto.
  intros Heq. apply Hnotin. rewrite Heq. now apply in_map.
Qed.

(** C4.  For every mapping of members to timezones (a dict: no member
    twice) and every value of the clock: two members of the mapping are
    listed in one group of [users_by_timezones_sorted] exactly when their
    naive local date-times are equal, whatever their zones; the groups come
    in ascending order of the key [(naive_time, len(users))], local
    date-time first and group size second, and their local date-times are
    strictly ascending. *)
Theorem display_groups_by_local_time
    (time_now : datetime) (tzs : dict Z tzinfo) :
  dict_wf tzs ->
  let groups := users_by_timezones_sorted time_now tzs in
  (forall u1 tz1 u2 tz2,
      dict_get u1 tzs = Some tz1 -> dict_get u2 tzs = Some tz2 ->
      ((exists group, In group groups /\ in_group u1 group /\ in_group u2 group)
       <-> naive_local time_now tz1 = naive_local time_now tz2))
  /\ StronglySorted (fun a b => group_key_leb a b = true) groups
  /\ StronglySorted (fun a b => fst a < fst b) groups.
Proof.
  intros Hwf groups.
  destruct (users_by_timezones_grouped time_now tzs) as (Hgwf & Hkey & Hall).
  assert (Hperm : Permutation groups (users_by_timezones time_now tzs))
    by apply sorted_perm.
  assert (Hsorted : StronglySorted (fun a b => group_key_leb a b = true) groups).
  { apply sorted_ordered.
    - apply group_key_leb_total.
    - apply group_key_leb_trans. }
  split; [|split]; auto.
  - intros u1 tz1 u2 tz2 H1 H2. split.
    + intros ([k users] & Hin & Hu1 & Hu2).
      apply (Permutation_in _ Hperm) in Hin.
      apply (in_dict_get _ _ _ Hgwf) in Hin.
      unfold in_group in Hu1, Hu2. simpl in Hu1, Hu2.
      apply in_map_iff in Hu1. destruct Hu1 as ([u1' tz1'] & Hf1 & Hi1).
      apply in_map_iff in Hu2. destruct Hu2 as ([u2' tz2'] & Hf2 & Hi2).
      simpl in Hf1, Hf2. subst u1' u2'.
      destruct (Hkey _ _ Hin _ Hi1) as [Hk1 Hs1].
      destruct (Hkey _ _ Hin _ Hi2) as [Hk2 Hs2].
      apply (in_dict_get _ _ _ Hwf) in Hs1.
      apply (in_dict_get _ _ _ Hwf) in Hs2.
      simpl in Hk1, Hk2. congruence.
    + intros Heq.
      destruct (Hall (u1, tz1) (dict_get_in _ _ _ H1)) as (us1 & Hg1 & Hi1).
      destruct (Hall (u2, tz2) (dict_get_in _ _ _ H2)) as (us2 & Hg2 & Hi2).
      simpl in Hg1, Hg2. rewrite Heq in Hg1.
      assert (us1 = us2) by congruence. subst us2.
      exists (naive_local time_now tz2, us1). split; [|split].
      * apply (Permutation_in _ (Permutation_sym Hperm)).
        now apply dict_get_in.
      * unfold in_group. simpl. change u1 with (fst (u1, tz1)).
        now apply in_map.
      * unfold in_group. simpl. change u2 with (fst (u2, tz2)).
        now apply in_map.
  - apply ordered_distinct_strict; auto.
    apply (Permutation_NoDup (l := map fst (users_by_timezones time_now tzs))).
    + apply Permutation_map. now symmetry.
    + exact Hgwf.
Qed.

End Grouping.

(** ** Commands *)

Section Commands.
Context {E : Externals} (P : platform).


(** C10.  When [time_message_cache] has no entry for the guild,
    [time_message_clear] replies "No persistent time message exists." and
    returns: nothing else happens, the file is not read or written, and a
    ["time_message"] the file holds for the guild is still there
    afterwards. *)
Theorem time_message_clear_without_cache_entry
    (d : document) (cache : dict Z message) (ctx : context) :
  dict_get (ctx_guild ctx) cache = None ->
  let r := run P (time_message_clear ctx) (idle d cache) in
  r = (Returned tt,
       after [EvReply "No persistent time message exists." true] (idle d cache))
  /\ file (snd r) = d
  /\ fst (run P (get_time_message (ctx_guild ctx)) (snd r))
     = Returned (doc_time_message (str (ctx_guild ctx)) d).
Proof.
  intros Hnone. unfold time_message_clear. simpl. rewrite Hnone. simpl.
  repeat split.
Qed.

End Commands.

(** ** The refresh tick *)

Section Refresh.
Context {E : Externals} (P : platform).

Lemma doc_time_message_del_user g g0 u data :
  doc_time_message g0 (del_user_timezone g u data) = doc_time_message g0 data.
Proof.
  unfold doc_time_message, del_user_timezone.
  destruct (dict_get g data) as [gd|] eqn:Hg; auto.
  destruct (string_dec g0 g) as [->|Hne].
  - now rewrite dict_get_set_same, Hg.
  - now rewrite dict_get_set_other.
Qed.

Lemma same_messages_refl (w : world) : locked w = false -> same_messages w w.
Proof. now repeat split. Qed.

Lemma get_timezone_loop_keeps g di_used items data tzs (w : world) :
  locked w = false ->
  (forall g0, doc_time_message g0 data = doc_time_message g0 (file w)) ->
  let r := run P (get_timezone_loop g di_used items data tzs) w in
  fst r <> Blocked /\ same_messages w (snd r).
Proof.
  revert data tzs w.
  induction items as [|[u z] rest IH]; intros data tzs w Hfree Hdata; simpl.
  - destruct (negb (Nat.eqb (List.length (guild_timezones g data)) di_used));
      simpl; (split; [discriminate | now apply same_messages_refl]).
  - destruct (negb (Nat.eqb (List.length (guild_timezones g data)) di_used));
      simpl; [split; [discriminate | now apply same_messages_refl]|].
    destruct (pytz_timezone z) as [tz|].
    + destruct (py_int u) as [n|]; simpl.
      * now apply IH.
      * split; [discriminate | now apply same_messages_refl].
    + simpl. rewrite Hfree. simpl.
      match goal with
      | |- context [run P (get_timezone_loop g di_used rest ?d tzs) ?w'] =>
          destruct (IH d tzs w') as [Hnb (Hl & Hc & Hk & Hm)]
      end.
      * reflexivity.
      * intros g0. reflexivity.
      * split; auto. repeat split; auto.
        intros g0. rewrite Hm. simpl.
        rewrite doc_time_message_del_user. apply Hdata.
Qed.

Lemma same_messages_trans (w1 w2 w3 : world) :
  same_messages w1 w2 -> same_messages w2 w3 -> same_messages w1 w3.
Proof.
  intros (_ & Hc1 & Hk1 & Hm1) (Hl & Hc2 & Hk2 & Hm2).
  repeat split; try congruence.
Qed.

Lemma get_timezone_all_keeps (c : Z) (w : world) :
  locked w = false ->
  fst (run P (get_timezone c None) w) <> Blocked
  /\ same_messages w (snd (run P (get_timezone c None) w)).
Proof.
  intros Hfree.
  destruct (dict_in (str c) (file w)) eqn:Hin.
  - rewrite run_get_timezone_all_present by assumption.
    set (w1 := after [EvAcquire; EvLoad; EvRelease] w).
    assert (Hfree1 : locked w1 = false) by exact Hfree.
    assert (Hdata : forall g0,
               doc_time_message g0 (file w) = doc_time_message g0 (file w1))
      by reflexivity.
    destruct (get_timezone_loop_keeps (str c)
                (List.length (guild_timezones (str c) (file w)))
                (guild_timezones (str c) (file w)) (file w) [] w1
                Hfree1 Hdata) as [Hnb Hs].
    split; [exact Hnb|].
    apply (same_messages_trans w w1); [|exact Hs].
    now repeat split.
  - rewrite run_get_timezone_all_absent by assumption. simpl.
    split; [discriminate | now repeat split].
Qed.

(** [create_time_message_embed] reads the clock once and otherwise keeps
    what [get_timezone] keeps. *)
Lemma create_time_message_embed_keeps (c : Z) (b : bool) (w : world) :
  locked w = false ->
  let r := run P (create_time_message_embed c b) w in
  fst r <> Blocked
  /\ locked (snd r) = false
  /\ time_message_cache (snd r) = time_message_cache w
  /\ (forall g, doc_time_message g (file (snd r)) = doc_time_message g (file w)).
Proof.
  intros Hfree r. subst r. unfold create_time_message_embed.
  rewrite run_bind.
  destruct (get_timezone_all_keeps c w Hfree) as [Hnb (Hl & Hc & Hk & Hm)].
  destruct (run P (get_timezone c None) w) as [[tzs|e|] w1]; simpl in *.
  - repeat split; auto. discriminate.
  - repeat split; auto. discriminate.
  - congruence.
Qed.

Lemma run_remove_time_message (g : Z) (w : world) :
  locked w = false ->
  run P (remove_time_message g) w
  = (Returned tt,
     set_cache (dict_del g (time_message_cache w))
       (if dict_in (str g) (file w)
           && (match doc_time_message (str g) (file w) with
               | Some _ => true | None => false end)
        then
          let d := del_guild_time_message (str g) (file w) in
          after [EvAcquire; EvLoad; EvDump d; EvRelease] (set_file d w)
        else after [EvAcquire; EvLoad; EvRelease] w)).
Proof.
  intros Hfree.
  unfold remove_time_message, with_lock, try_finally, trigger; simpl.
  rewrite Hfree; simpl.
  destruct (dict_in (str g) (file w)
            && match doc_time_message (str g) (file w) with
               | Some _ => true | None => false end);
    simpl; world_eq Hfree.
Qed.

Lemma doc_time_message_after_remove (g : Z) (w : world) :
  locked w = false ->
  doc_time_message (str g) (file (snd (run P (remove_time_message g) w))) = None.
Proof.
  intros Hfree. rewrite run_remove_time_message by assumption. simpl.
  destruct (dict_in (str g) (file w)) eqn:Hin; simpl.
  - destruct (doc_time_message (str g) (file w)) eqn:Htm; simpl; auto.
    apply doc_time_message_del_message.
  - apply dict_in_false in Hin. unfold doc_time_message. now rewrite Hin.
Qed.

(** The branch of [update_guild] for a guild that resolves. *)
Lemma run_update_guild_resolvable (g : Z) (msg : message) (w : world) :
  resolvable P g = true ->
  dict_get g (time_message_cache w) = Some msg ->
  run P (update_guild g) w
  = if send_messages P msg g then
      match run P (create_time_message_embed g true) w with
      | (Returned em, w1) =>
          match edit_raises P msg with
          | None => (Returned tt, observe (EvEdit msg em) w1)
          | Some e => (Returned tt, observe (EvLog (UpdateFailed g e)) w1)
          end
      | (Raised e, w1) => (Returned tt, observe (EvLog (UpdateFailed g e)) w1)
      | (Blocked, w1) => (Blocked, w1)
      end
    else (Returned tt, w).
Proof.
  intros Hres Hmsg. unfold update_guild.
  rewrite run_bind. simpl run at 1. rewrite Hres.
  rewrite run_try_except, run_bind. simpl run at 1. rewrite Hmsg.
  rewrite run_bind. simpl run at 1.
  destruct (send_messages P msg g); [|reflexivity].
  rewrite run_bind.
  destruct (run P (create_time_message_embed g true) w) as [[em|e|] w1]; auto.
  simpl. destruct (edit_raises P msg); reflexivity.
Qed.

End Refresh.

Section RefreshTick.
Context {E : Externals} (P : platform).

Lemma run_update_guild_unresolvable (g : Z) (w : world) :
  resolvable P g = false ->
  run P (update_guild g) w = run P (remove_time_message g) w.
Proof.
  intros Hres. unfold update_guild.
  rewrite run_bind. simpl run at 1. now rewrite Hres.
Qed.

Lemma run_update_guild_not_cached (g : Z) (w : world) :
  resolvable P g = true ->
  dict_get g (time_message_cache w) = None ->
  run P (update_guild g) w
  = (Returned tt, observe (EvLog (UpdateFailed g KeyError)) w).
Proof.
  intros Hres Hmsg. unfold update_guild.
  rewrite run_bind. simpl run at 1. rewrite Hres.
  rewrite run_try_except, run_bind. simpl run at 1. now rewrite Hmsg.
Qed.

(** Whatever happens for one guild, the body of the loop returns and the
    lock is free for the next guild. *)
Lemma update_guild_returns (g : Z) (w : world) :
  locked w = false ->
  fst (run P (update_guild g) w) = Returned tt
  /\ locked (snd (run P (update_guild g) w)) = false.
Proof.
  intros Hfree.
  destruct (resolvable P g) eqn:Hres.
  - destruct (dict_get g (time_message_cache w)) as [msg|] eqn:Hmsg.
    + rewrite (run_update_guild_resolvable P g msg) by assumption.
      destruct (send_messages P msg g); [|now split].
      destruct (create_time_message_embed_keeps P g true w Hfree)
        as (Hnb & Hl & _).
      destruct (run P (create_time_message_embed g true) w) as [[em|e|] w1];
        simpl in *; [destruct (edit_raises P msg)| |congruence]; now split.
    + rewrite run_update_guild_not_cached by assumption. now split.
  - rewrite run_update_guild_unresolvable by assumption.
    rewrite run_remove_time_message by assumption. simpl. split; auto.
    now destruct (dict_in (str g) (file w)
                  && match doc_time_message (str g) (file w) with
                     | Some _ => true | None => false end).
Qed.

(** One tick runs the body for every key of the cache, in order. *)
Lemma run_for_each_update_guild (gs : list Z) (w : world) :
  locked w = false ->
  run P (for_each gs update_guild) w
  = (Returned tt,
     fold_left (fun w0 g0 => snd (run P (update_guild g0) w0)) gs w)
  /\ locked (fold_left (fun w0 g0 => snd (run P (update_guild g0) w0)) gs w)
     = false.
Proof.
  revert w. induction gs as [|g rest IH]; intros w Hfree;
    cbn [for_each fold_left].
  - now split.
  - rewrite run_bind.
    destruct (update_guild_returns g w Hfree) as [Hret Hl].
    destruct (run P (update_guild g) w) as [o w1].
    cbn [fst snd] in *. subst o.
    now apply IH.
Qed.

(** C6, as the code has it.  One tick runs the loop body once for every
    guild of the message cache, in order.  For a cached guild the body
    returns and leaves the lock free, and: if the guild does not resolve,
    its cache entry is dropped and the file holds no ["time_message"] for
    it; if it resolves and the channel of the cached message gives no send
    permission, nothing changes at all; if it resolves and the permission
    is there, [create_time_message_embed] is run and, when it returns an
    embed and [edit] does not raise, the cached message is edited with that
    embed, while an exception of either is logged; whenever the guild
    resolves, the cache and every stored ["time_message"] are kept.  When
    every identifier stored for the guild is accepted, the embed is
    returned and the file is not written. *)
Theorem refresh_tick_cases (w : world) :
  locked w = false ->
  run P time_message_updater_task w
  = (Returned tt,
     fold_left (fun w0 g0 => snd (run P (update_guild g0) w0))
               (keys (time_message_cache w)) w)
  /\ forall (w0 : world) (g : Z) (msg : message),
      locked w0 = false ->
      dict_get g (time_message_cache w0) = Some msg ->
      let r := run P (update_guild g) w0 in
      (fst r = Returned tt /\ locked (snd r) = false)
      /\ (resolvable P g = false ->
          time_message_cache (snd r) = dict_del g (time_message_cache w0)
          /\ dict_get g (time_message_cache (snd r)) = None
          /\ doc_time_message (str g) (file (snd r)) = None)
      /\ (resolvable P g = true -> send_messages P msg g = false ->
          snd r = w0)
      /\ (resolvable P g = true -> send_messages P msg g = true ->
          match run P (create_time_message_embed g true) w0 with
          | (Returned em, w1) =>
              match edit_raises P msg with
              | None => snd r = observe (EvEdit msg em) w1
              | Some e => snd r = observe (EvLog (UpdateFailed g e)) w1
              end
          | (Raised e, w1) => snd r = observe (EvLog (UpdateFailed g e)) w1
          | (Blocked, _) => False
          end)
      /\ (resolvable P g = true ->
          time_message_cache (snd r) = time_message_cache w0
          /\ forall g0, doc_time_message g0 (file (snd r))
                        = doc_time_message g0 (file w0))
      /\ (Forall entry_ok (guild_timezones (str g) (file w0)) ->
          exists em w1,
            run P (create_time_message_embed g true) w0 = (Returned em, w1)
            /\ file w1 = file w0).
Proof.
  intros Hfree. split.
  - unfold time_message_updater_task. rewrite run_bind. simpl run at 1.
    now apply run_for_each_update_guild.
  - clear w Hfree. intros w g msg Hfree Hmsg r. subst r.
    split; [now apply update_guild_returns|].
    split; [|split; [|split; [|split]]].
    + intros Hres.
      rewrite run_update_guild_unresolvable by assumption.
      pose proof (doc_time_message_after_remove P g w Hfree) as Htm.
      rewrite run_remove_time_message in * by assumption. simpl in *.
      repeat split; auto. apply dict_get_del_same.
    + intros Hres Hsend.
      rewrite (run_update_guild_resolvable P g msg) by assumption.
      now rewrite Hsend.
    + intros Hres Hsend.
      rewrite (run_update_guild_resolvable P g msg) by assumption.
      rewrite Hsend.
      destruct (create_time_message_embed_keeps P g true w Hfree)
        as (Hnb & _).
      destruct (run P (create_time_message_embed g true) w) as [[em|e|] w1];
        simpl in *; [destruct (edit_raises P msg)| |congruence]; reflexivity.
    + intros Hres.
      rewrite (run_update_guild_resolvable P g msg) by assumption.
      destruct (send_messages P msg g); [|now split].
      destruct (create_time_message_embed_keeps P g true w Hfree)
        as (Hnb & Hl & Hc & Hm).
      destruct (run P (create_time_message_embed g true) w) as [[em|e|] w1];
        simpl in *; [destruct (edit_raises P msg)| |congruence]; now split.
    + intros Hok.
      destruct (run_get_timezone_all_ok P g w Hfree Hok) as (tzs & Hrun & _).
      unfold create_time_message_embed. rewrite run_bind, Hrun.
      simpl. eauto.
Qed.

End RefreshTick.

(** ** The lock discipline *)

Section LockDiscipline.
Context {E : Externals} (P : platform).

(** The four writers of the store read, change and write the file under
    one holding of the lock. *)
Lemma store_writers_hold_the_lock
    (d : document) (cache : dict Z message) (c m ch msg : Z) (z : string) :
  read_modify_write_atomic
    (history (snd (run P (save_timezone c m z) (idle d cache)))) = true
  /\ read_modify_write_atomic
       (history (snd (run P (remove_timezone c m) (idle d cache)))) = true
  /\ read_modify_write_atomic
       (history (snd (run P (save_time_message c ch msg) (idle d cache)))) = true
  /\ read_modify_write_atomic
       (history (snd (run P (remove_time_message c) (idle d cache)))) = true.
Proof.
  split; [|split; [|split]].
  - now rewrite run_save_timezone.
  - rewrite run_remove_timezone by reflexivity.
    now destruct (dict_in (str c) (file (idle d cache))
                  && dict_in (str m)
                       (guild_timezones (str c) (file (idle d cache)))).
  - reflexivity.
  - rewrite run_remove_time_message by reflexivity.
    now destruct (dict_in (str c) (file (idle d cache))
                  && match doc_time_message (str c) (file (idle d cache)) with
                     | Some _ => true | None => false end).
Qed.

End LockDiscipline.


(** ** The claims as the specification words them, at concrete inputs *)


(** C6, as stated, fails in its last case.  Guild 1 is in the cache, it
    resolves, and the channel of the cached message gives the send
    permission.  When the platform refuses the edit, the exception is
    caught and logged and the message is not edited.  When the file holds
    an identifier that [pytz] does not know, the recomputation raises, the
    exception is caught and logged, and no edit is asked for. *)
Lemma refresh_tick_without_edit :
  resolvable sample_platform 1 = true
  /\ send_messages sample_platform sample_message 1 = true
  /\ history (snd (run refusing_platform time_message_updater_task
                     (idle sample_document [(1, sample_message)])))
     = [EvAcquire; EvLoad; EvRelease; EvLog (UpdateFailed 1 HTTPException)]
  /\ history (snd (run sample_platform time_message_updater_task
                     (idle stale_document [(1, sample_message)])))
     = [EvAcquire; EvLoad; EvRelease;
        EvLog (InvalidTimezoneWarning "mars/phobos" "10");
        EvAcquire;
        EvDump [("1", {| timezones := []; time_message := Some (5, 6) |})];
        EvRelease; EvLog (UpdateFailed 1 RuntimeError)].
Proof. vm_compute. repeat split. Qed.

(** ** The theorems at concrete inputs *)

(** C1 at guild 1, user 10 and ["utc"], over a file that held a stale
    identifier for that user. *)
Lemma save_timezone_then_get_timezone_witness :
  pytz_timezone "utc" = Some {| zone_name := "UTC"; utc_offset_seconds := 0 |}
  /\ fst (run sample_platform
            (save_timezone 1 10 "utc" ;; get_timezone 1 (Some 10))
            (idle stale_document []))
     = Returned (Some {| zone_name := "UTC"; utc_offset_seconds := 0 |}).
Proof.
  split; [reflexivity|].
  exact (proj1 (save_timezone_then_get_timezone sample_platform
                  stale_document [] 1 10 "utc"
                  {| zone_name := "UTC"; utc_offset_seconds := 0 |} eq_refl)).
Defined.


(** C4 at three members: users 10 ([UTC]) and 11 ([Etc/GMT]) share a group,
    users 10 and 12 ([Etc/GMT-9]) do not. *)
Lemma display_groups_by_local_time_witness :
  let tzs := [(10, {| zone_name := "UTC"; utc_offset_seconds := 0 |});
              (12, {| zone_name := "Etc/GMT-9"; utc_offset_seconds := 32400 |});
              (11, {| zone_name := "Etc/GMT"; utc_offset_seconds := 0 |})] in
  dict_wf tzs
  /\ ((exists group,
          In group (users_by_timezones_sorted 1700000000000000 tzs)
          /\ in_group 10 group /\ in_group 11 group)
      /\ ~ (exists group,
              In group (users_by_timezones_sorted 1700000000000000 tzs)
              /\ in_group 10 group /\ in_group 12 group)).
Proof.
  intros tzs.
  assert (Hwf : dict_wf tzs).
  { unfold dict_wf, tzs. simpl.
    repeat constructor; simpl; intuition discriminate. }
  split; [exact Hwf|].
  destruct (display_groups_by_local_time (E := sample_externals)
              1700000000000000 tzs Hwf) as [Hsame _].
  split.
  - apply (Hsame 10 {| zone_name := "UTC"; utc_offset_seconds := 0 |}
                 11 {| zone_name := "Etc/GMT"; utc_offset_seconds := 0 |});
      reflexivity.
  - intros Hgroup.
    apply (Hsame 10 {| zone_name := "UTC"; utc_offset_seconds := 0 |}
                 12 {| zone_name := "Etc/GMT-9"; utc_offset_seconds := 32400 |})
      in Hgroup; [discriminate | reflexivity | reflexivity].
Defined.

(** C6 at a cache with guilds 1 and 2. *)
Lemma refresh_tick_cases_witness :
  locked (idle sample_document [(1, sample_message); (2, sample_message)])
  = false
  /\ run sample_platform time_message_updater_task
       (idle sample_document [(1, sample_message); (2, sample_message)])
     = (Returned tt,
        fold_left
          (fun w0 g0 => snd (run sample_platform (update_guild g0) w0))
          [1; 2]
          (idle sample_document [(1, sample_message); (2, sample_message)])).
Proof.
  split; [reflexivity|].
  exact (proj1 (refresh_tick_cases sample_platform
                  (idle sample_document
                     [(1, sample_message); (2, sample_message)])
                  eq_refl)).
Defined.

(** C10 at an empty cache over a file that holds a ["time_message"]. *)
Lemma time_message_clear_without_cache_entry_witness :
  dict_get 1 ([] : dict Z message) = None
  /\ file (snd (run sample_platform
                  (time_message_clear {| ctx_guild := 1; ctx_author := 10;
                                         manage_guild := true |})
                  (idle sample_document [])))
     = sample_document.
Proof.
  split; [reflexivity|].
  exact (proj1 (proj2 (time_message_clear_without_cache_entry sample_platform
                         sample_document []
                         {| ctx_guild := 1; ctx_author := 10;
                            manage_guild := true |} eq_refl))).
Defined.

(** C7 at user 13 of guild 1, for whom the file holds nothing. *)
Lemma remove_timezone_then_get_timezone_witness :
  dict_get (str 13) (guild_timezones (str 1) sample_document) = None
  /\ run sample_platform (remove_timezone 1 13) (idle sample_document [])
     = (Returned tt,
        after [EvAcquire; EvLoad; EvRelease] (idle sample_document [])).
Proof.
  split; [reflexivity|].
  exact (proj2 (proj2 (remove_timezone_then_get_timezone sample_platform
                         sample_document [] 1 13)) eq_refl).
Defined.

(** C8 at guild 2, which the file does not know. *)
Lemma empty_mapping_display_witness :
  guild_timezones (str 2) sample_document = []
  /\ fst (run sample_platform (create_time_message_embed 2 false)
            (idle sample_document []))
     = Returned {| title := "What's the time?"; description := no_one_text |}.
Proof.
  split; [reflexivity|].
  exact (proj2 (proj2 (empty_mapping_display sample_platform 0 []
                         sample_document [] 2) eq_refl)).
Defined.

(** C9 at a save for user 10 of guild 1: the item of user 11 stays. *)
Lemma save_timezone_frame_witness :
  11 <> 10
  /\ dict_get (str 11)
       (guild_timezones (str 1)
          (file (snd (run sample_platform (save_timezone 1 10 "etc/gmt+5")
                        (idle sample_document [])))))
     = dict_get (str 11) (guild_timezones (str 1) sample_document).
Proof.
  assert (Hne : 11 <> 10) by discriminate.
  split; [exact Hne|].
  exact (proj1 (proj2 (proj2 (proj2 (proj2
           (save_timezone_frame sample_platform sample_document []
              1 10 "etc/gmt+5"))))) 11 Hne).
Defined.

(** * Further properties of the store *)

(** ** The persisted time message *)

Lemma dict_in_set_message g cm data :
  dict_in g data = true -> dict_in g (set_guild_time_message g cm data) = true.
Proof.
  unfold dict_in at 1, set_guild_time_message.
  destruct (dict_get g data) eqn:Hg; [|discriminate].
  intros _. unfold dict_in. now rewrite dict_get_set_same.
Qed.

Lemma doc_time_message_set_message g cm data :
  dict_in g data = true ->
  doc_time_message g (set_guild_time_message g cm data) = Some cm.
Proof.
  unfold dict_in, doc_time_message, set_guild_time_message.
  destruct (dict_get g data) eqn:Hg; [|discriminate].
  intros _. now rewrite dict_get_set_same.
Qed.

Lemma dict_get_set_message_other g g0 cm data :
  g0 <> g -> dict_get g0 (set_guild_time_message g cm data) = dict_get g0 data.
Proof.
  intros Hne. unfold set_guild_time_message. destruct (dict_get g data); auto.
  now apply dict_get_set_other.
Qed.

Lemma guild_timezones_set_message g g0 cm data :
  guild_timezones g0 (set_guild_time_message g cm data)
  = guild_timezones g0 data.
Proof.
  unfold guild_timezones, set_guild_time_message.
  destruct (dict_get g data) eqn:Hg; auto.
  destruct (string_dec g0 g) as [->|Hne].
  - now rewrite dict_get_set_same, Hg.
  - now rewrite dict_get_set_other.
Qed.

Lemma guild_timezones_ensure_guild_any g g0 data :
  guild_timezones g0 (ensure_guild g data) = guild_timezones g0 data.
Proof.
  destruct (string_dec g0 g) as [->|Hne].
  - apply guild_timezones_ensure_guild.
  - unfold guild_timezones. now rewrite dict_get_ensure_guild_other.
Qed.

Lemma guild_timezones_del_message_any g g0 data :
  guild_timezones g0 (del_guild_time_message g data) = guild_timezones g0 data.
Proof.
  unfold guild_timezones, del_guild_time_message.
  destruct (dict_get g data) eqn:Hg; auto.
  destruct (string_dec g0 g) as [->|Hne].
  - now rewrite dict_get_set_same, Hg.
  - now rewrite dict_get_set_other.
Qed.

Lemma dict_get_del_message_other_guild g g0 data :
  g0 <> g -> dict_get g0 (del_guild_time_message g data) = dict_get g0 data.
Proof.
  intros Hne. unfold del_guild_time_message. destruct (dict_get g data); auto.
  now apply dict_get_set_other.
Qed.

Lemma del_guild_time_message_absent g data :
  doc_time_message g data = None -> del_guild_time_message g data = data.
Proof.
  unfold doc_time_message, del_guild_time_message.
  destruct (dict_get g data) as [gd|] eqn:Hg; auto.
  intros Htm. destruct gd as [tzs tm]; simpl in *. subst tm.
  now apply dict_set_same_value.
Qed.

Section TimeMessageStore.
Context {E : Externals} (P : platform).

Lemma run_save_time_message (c ch m : Z) (w : world) :
  locked w = false ->
  run P (save_time_message c ch m) w
  = (Returned tt,
     let d := set_guild_time_message (str c) (ch, m)
                (ensure_guild (str c) (file w)) in
     after [EvAcquire; EvLoad; EvDump d; EvRelease] (set_file d w)).
Proof.
  intros Hfree. unfold save_time_message, with_lock, try_finally, trigger; simpl.
  rewrite Hfree; simpl. world_eq Hfree.
Qed.

Lemma run_get_time_message (c : Z) (w : world) :
  locked w = false ->
  run P (get_time_message c) w
  = (Returned (doc_time_message (str c) (file w)),
     after [EvAcquire; EvLoad; EvRelease] w).
Proof.
  intros Hfree. unfold get_time_message.
  now rewrite run_bind, run_locked_load.
Qed.

(** X1.  Whatever the file holds, [save_time_message(c, ch, m)] followed by
    [get_time_message(c)] returns the pair [(ch, m)]; a pair saved earlier
    for the guild is replaced. *)
Theorem save_time_message_then_get_time_message
    (d : document) (cache : dict Z message) (c ch m ch0 m0 : Z) :
  fst (run P (save_time_message c ch m ;; get_time_message c) (idle d cache))
  = Returned (Some (ch, m))
  /\ fst (run P (save_time_message c ch0 m0 ;; save_time_message c ch m ;;
                 get_time_message c) (idle d cache))
     = Returned (Some (ch, m)).
Proof.
  assert (Hone : forall w, locked w = false ->
            fst (run P (save_time_message c ch m ;; get_time_message c) w)
            = Returned (Some (ch, m))).
  { intros w Hfree.
    rewrite run_bind, run_save_time_message by assumption.
    cbv beta iota zeta. rewrite run_get_time_message by assumption.
    simpl. f_equal.
    apply doc_time_message_set_message, dict_in_ensure_guild. }
  split.
  - now apply Hone.
  - rewrite run_bind, run_save_time_message by reflexivity.
    now apply Hone.
Qed.

(** X2.  [save_time_message(c, ch, m)] changes nothing but the
    ["time_message"] of [c]: every guild keeps its timezones, every other
    guild key keeps its value, and the message cache is not touched. *)
Theorem save_time_message_frame
    (d : document) (cache : dict Z message) (c ch m : Z) :
  let w' := snd (run P (save_time_message c ch m) (idle d cache)) in
  (forall g : string,
      guild_timezones g (file w') = guild_timezones g d)
  /\ (forall g : string, g <> str c -> dict_get g (file w') = dict_get g d)
  /\ (forall c' : Z, c' <> c ->
        doc_time_message (str c') (file w') = doc_time_message (str c') d)
  /\ time_message_cache w' = cache.
Proof.
  rewrite run_save_time_message by reflexivity. simpl.
  assert (Hother : forall g, g <> str c ->
            dict_get g (set_guild_time_message (str c) (ch, m)
                          (ensure_guild (str c) d)) = dict_get g d).
  { intros g Hne. rewrite dict_get_set_message_other by assumption.
    now apply dict_get_ensure_guild_other. }
  repeat split; auto.
  - intros g. rewrite guild_timezones_set_message.
    apply guild_timezones_ensure_guild_any.
  - intros c' Hne. unfold doc_time_message. rewrite Hother; auto.
    intros Heq. now apply Hne, str_inj.
Qed.

(** X3.  After [remove_time_message(g)], which never raises,
    [get_time_message(g)] returns [None] and the cache has no entry for
    [g]; every guild keeps its timezones; every other guild keeps its
    stored value and its cache entry; and when the file holds no
    ["time_message"] for [g] the file is not written. *)
Theorem remove_time_message_effect
    (d : document) (cache : dict Z message) (g : Z) :
  let r := run P (remove_time_message g) (idle d cache) in
  fst r = Returned tt
  /\ fst (run P (get_time_message g) (snd r)) = Returned None
  /\ dict_get g (time_message_cache (snd r)) = None
  /\ (forall g0 : string,
        guild_timezones g0 (file (snd r)) = guild_timezones g0 d)
  /\ (forall g0 : Z, g0 <> g ->
        dict_get (str g0) (file (snd r)) = dict_get (str g0) d
        /\ dict_get g0 (time_message_cache (snd r)) = dict_get g0 cache)
  /\ (doc_time_message (str g) d = None ->
      file (snd r) = d
      /\ history (snd r) = [EvAcquire; EvLoad; EvRelease]).
Proof.
  intros r. subst r.
  pose proof (doc_time_message_after_remove P g (idle d cache) eq_refl) as Htm.
  rewrite run_remove_time_message in * by reflexivity.
  cbv beta iota zeta in *. cbn [fst snd] in *.
  split; [reflexivity|]. split; [|split; [|split; [|split]]].
  - rewrite run_get_time_message.
    + cbn [fst]. now rewrite Htm.
    + simpl. now destruct (dict_in (str g) d
                            && match doc_time_message (str g) d with
                               | Some _ => true | None => false end).
  - simpl. apply dict_get_del_same.
  - intros g0. simpl.
    destruct (dict_in (str g) d
              && match doc_time_message (str g) d with
                 | Some _ => true | None => false end); simpl; auto.
    apply guild_timezones_del_message_any.
  - intros g0 Hne. simpl. split.
    + destruct (dict_in (str g) d
                && match doc_time_message (str g) d with
                   | Some _ => true | None => false end); simpl; auto.
      apply dict_get_del_message_other_guild.
      intros Heq. now apply Hne, str_inj.
    + now apply dict_get_del_other.
  - intros Hnone. simpl. rewrite Hnone, andb_false_r. simpl. auto.
Qed.

End TimeMessageStore.

(** ** Timezones: removal and self-healing *)

Lemma dict_get_del_user_other_guild g g0 u data :
  g0 <> g -> dict_get g0 (del_user_timezone g u data) = dict_get g0 data.
Proof.
  intros Hne. unfold del_user_timezone. destruct (dict_get g data); auto.
  now apply dict_get_set_other.
Qed.

(** What deleting one user's item leaves in place. *)
Lemma del_user_timezone_frame (c m : Z) (d : document) :
  let d' := del_user_timezone (str c) (str m) d in
  dict_get (str m) (guild_timezones (str c) d') = None
  /\ (forall m' : Z, m' <> m ->
        dict_get (str m') (guild_timezones (str c) d')
        = dict_get (str m') (guild_timezones (str c) d))
  /\ (forall c' : Z, c' <> c -> dict_get (str c') d' = dict_get (str c') d)
  /\ (forall g : string, doc_time_message g d' = doc_time_message g d).
Proof.
  simpl. split; [|split; [|split]].
  - rewrite guild_timezones_del_user. apply dict_get_del_same.
  - intros m' Hne. rewrite guild_timezones_del_user.
    apply dict_get_del_other. intros Heq. now apply Hne, str_inj.
  - intros c' Hne. apply dict_get_del_user_other_guild.
    intros Heq. now apply Hne, str_inj.
  - intros g. apply doc_time_message_del_user.
Qed.

Section Healing.
Context {E : Externals} (P : platform).

(** X4.  [remove_timezone(c, m)] takes away the item of [m] in [c] and
    nothing else: every other user of [c] and every other guild keep their
    values, every guild keeps its ["time_message"], and the message cache
    is not touched. *)
Theorem remove_timezone_frame
    (d : document) (cache : dict Z message) (c m : Z) :
  let w' := snd (run P (remove_timezone c m) (idle d cache)) in
  dict_get (str m) (guild_timezones (str c) (file w')) = None
  /\ (forall m' : Z, m' <> m ->
        dict_get (str m') (guild_timezones (str c) (file w'))
        = dict_get (str m') (guild_timezones (str c) d))
  /\ (forall c' : Z, c' <> c ->
        dict_get (str c') (file w') = dict_get (str c') d)
  /\ (forall g : string,
        doc_time_message g (file w') = doc_time_message g d)
  /\ time_message_cache w' = cache.
Proof.
  intros w'. subst w'.
  rewrite (file_after_remove_timezone P c m (idle d cache) eq_refl).
  destruct (del_user_timezone_frame c m d) as (H1 & H2 & H3 & H4).
  repeat split; auto.
  rewrite run_remove_timezone by reflexivity. simpl.
  now destruct (dict_in (str c) d && dict_in (str m) (guild_timezones (str c) d)).
Qed.

(** X5.  When the file holds for [(c, m)] a non-empty identifier that
    [pytz] does not know, [get_timezone(c, m)] returns [None] and writes
    the file without that item; every other user, every other guild and
    every ["time_message"] are kept.  A second call returns [None] and
    writes nothing. *)
Theorem get_timezone_heals_stale_identifier
    (d : document) (cache : dict Z message) (c m : Z) (z : string) :
  dict_get (str m) (guild_timezones (str c) d) = Some z ->
  truthy z = true ->
  pytz_timezone z = None ->
  let r := run P (get_timezone c (Some m)) (idle d cache) in
  fst r = Returned None
  /\ file (snd r) = del_user_timezone (str c) (str m) d
  /\ dict_get (str m) (guild_timezones (str c) (file (snd r))) = None
  /\ (forall m' : Z, m' <> m ->
        dict_get (str m') (guild_timezones (str c) (file (snd r)))
        = dict_get (str m') (guild_timezones (str c) d))
  /\ (forall c' : Z, c' <> c ->
        dict_get (str c') (file (snd r)) = dict_get (str c') d)
  /\ (forall g : string,
        doc_time_message g (file (snd r)) = doc_time_message g d)
  /\ run P (get_timezone c (Some m)) (snd r)
     = (Returned None, after [EvAcquire; EvLoad; EvRelease] (snd r)).
Proof.
  intros Hget Htruthy Hz r. subst r.
  assert (Hin : dict_in (str c) d = true).
  { unfold guild_timezones in Hget. unfold dict_in.
    destruct (dict_get (str c) d); [reflexivity | discriminate]. }
  rewrite run_get_timezone_user by reflexivity.
  cbv zeta. simpl file. rewrite Hin, Hget, Htruthy, Hz. cbn [negb fst snd].
  destruct (del_user_timezone_frame c m d) as (H1 & H2 & H3 & H4).
  split; [reflexivity|]. split; [reflexivity|].
  simpl file. repeat split; auto.
  rewrite run_get_timezone_user by reflexivity.
  cbv zeta. simpl file. rewrite dict_in_del_user, Hin, H1. reflexivity.
Qed.

End Healing.

(** X5 at user 10 of guild 1, whose stored identifier is ["mars/phobos"]. *)
Lemma get_timezone_heals_stale_identifier_witness :
  (dict_get (str 10) (guild_timezones (str 1) stale_document)
   = Some "mars/phobos"
   /\ truthy "mars/phobos" = true
   /\ pytz_timezone "mars/phobos" = None)
  /\ file (snd (run sample_platform (get_timezone 1 (Some 10))
                  (idle stale_document [])))
     = del_user_timezone (str 1) (str 10) stale_document.
Proof.
  split; [repeat split|].
  exact (proj1 (proj2 (get_timezone_heals_stale_identifier sample_platform
                         stale_document [] 1 10 "mars/phobos"
                         eq_refl eq_refl eq_refl))).
Defined.

(** ** The mapping of a guild, item by item *)

Lemma dict_set_absent {K V : Type} `{EqKey K} (k : K) (v : V) (d : dict K V) :
  dict_in k d = false -> dict_set k v d = (d ++ [(k, v)])%list.
Proof.
  unfold dict_in. induction d as [|[k' v'] t IH]; simpl; auto.
  destruct (keq k' k); [discriminate|].
  intros Hin. now rewrite IH.
Qed.

Lemma dict_del_middle {K V : Type} `{EqKey K} (k : K) (v : V)
    (pre post : dict K V) :
  dict_wf (pre ++ (k, v) :: post)%list ->
  dict_del k (pre ++ (k, v) :: post)%list = (pre ++ post)%list.
Proof.
  unfold dict_wf, keys. rewrite map_app. simpl. intros Hwf.
  apply NoDup_remove_2 in Hwf.
  assert (Hpre : ~ In k (map fst pre)) by (intros Hin; apply Hwf, in_or_app; auto).
  assert (Hpost : ~ In k (map fst post)) by (intros Hin; apply Hwf, in_or_app; auto).
  clear Hwf. induction pre as [|[k' v'] t IH]; simpl in *.
  - rewrite keq_refl. apply dict_del_absent.
    apply dict_in_false. destruct (dict_in k post) eqn:Hin; auto.
    exfalso. now apply Hpost, dict_get_in_keys.
  - destruct (keq_spec k' k) as [->|Hne]; [tauto|].
    rewrite IH; auto.
Qed.

Section StoredMapping.
Context {E : Externals} (P : platform).

Lemma get_timezone_loop_resolves g di_used items data acc (w : world) :
  List.length (guild_timezones g data) = di_used ->
  NoDup (map fst items) ->
  (forall item n, In item items -> fst item = str n -> dict_in n acc = false) ->
  (forall item, In item items -> exists out, resolves item out) ->
  exists outs,
    Forall2 resolves items outs
    /\ run P (get_timezone_loop g di_used items data acc) w
       = (Returned (acc ++ outs)%list, w).
Proof.
  intros Hsize. apply Nat.eqb_eq in Hsize.
  revert acc. induction items as [|[u z] rest IH];
    intros acc Hnd Hfresh Hres; simpl; rewrite Hsize; simpl.
  - exists []. split; [constructor | now rewrite app_nil_r].
  - destruct (Hres (u, z) (or_introl eq_refl)) as [[n tz] [Hu Hz]].
    simpl in Hu, Hz. subst u. rewrite Hz, py_int_str.
    inversion Hnd as [|? ? Hnotin Hnd']; subst.
    destruct (IH (dict_set n tz acc)) as [outs [Hall Hrun]]; auto.
    + intros item n' Hin Hkey.
      assert (Hne : n' <> n).
      { intros ->. apply Hnotin. rewrite <- Hkey. now apply in_map. }
      unfold dict_in. rewrite dict_get_set_other by assumption.
      change (dict_in n' acc = false).
      eapply Hfresh; [right; exact Hin | exact Hkey].
    + intros item Hin. apply Hres. now right.
    + exists ((n, tz) :: outs). split.
      * constructor; [now split | assumption].
      * rewrite Hrun. rewrite dict_set_absent.
        -- now rewrite <- app_assoc.
        -- eapply Hfresh; [now left | reflexivity].
Qed.

(** X6.  When every item stored for the guild has a numeral key and an
    identifier that [pytz] knows, [get_timezone(c)] returns the stored
    items in their order, each key read as the user id and each identifier
    replaced by its timezone; it reads the file once and writes nothing. *)
Theorem get_timezone_all_returns_stored_items
    (d : document) (cache : dict Z message) (c : Z) :
  dict_wf (guild_timezones (str c) d) ->
  (forall item, In item (guild_timezones (str c) d) ->
     exists out, resolves item out) ->
  exists tzs : dict Z tzinfo,
    Forall2 resolves (guild_timezones (str c) d) tzs
    /\ run P (get_timezone c None) (idle d cache)
       = (Returned tzs, after [EvAcquire; EvLoad; EvRelease] (idle d cache)).
Proof.
  intros Hwf Hres.
  destruct (dict_in (str c) d) eqn:Hin.
  - rewrite run_get_timezone_all_present by auto. simpl file.
    destruct (get_timezone_loop_resolves (str c)
                (List.length (guild_timezones (str c) d))
                (guild_timezones (str c) d) d []
                (after [EvAcquire; EvLoad; EvRelease] (idle d cache))
                eq_refl Hwf) as [outs [Hall Hrun]]; auto.
    exists outs. split; auto.
  - exists []. split.
    + apply dict_in_false in Hin. unfold guild_timezones. rewrite Hin.
      constructor.
    + now apply run_get_timezone_all_absent.
Qed.

(** X7.  When the items stored for the guild hold an identifier that
    [pytz] does not know, after items that are accepted, [get_timezone(c)]
    raises [RuntimeError]; the file then holds the guild's items without
    the first rejected one, the others in their order, and every
    ["time_message"] as before. *)
Theorem get_timezone_all_removes_first_stale_item
    (d : document) (cache : dict Z message) (c : Z)
    (pre post : dict string string) (u z : string) :
  guild_timezones (str c) d = (pre ++ (u, z) :: post)%list ->
  dict_wf (guild_timezones (str c) d) ->
  Forall entry_ok pre ->
  pytz_timezone z = None ->
  let r := run P (get_timezone c None) (idle d cache) in
  fst r = Raised RuntimeError
  /\ guild_timezones (str c) (file (snd r)) = (pre ++ post)%list
  /\ (forall g, doc_time_message g (file (snd r)) = doc_time_message g d)
  /\ locked (snd r) = false.
Proof.
  intros Hitems Hwf Hok Hz r. subst r.
  rewrite (run_get_timezone_all_stale P c pre u z post) by auto.
  cbv zeta. cbn [fst snd]. simpl file. split; [reflexivity|].
  split; [|split; [|reflexivity]].
  - rewrite guild_timezones_del_user, Hitems.
    apply dict_del_middle. now rewrite <- Hitems.
  - intros g. apply doc_time_message_del_user.
Qed.

End StoredMapping.

(** X6 at guild 1 of the sample document. *)
Lemma get_timezone_all_returns_stored_items_witness :
  dict_wf (guild_timezones (str 1) sample_document)
  /\ (forall item, In item (guild_timezones (str 1) sample_document) ->
        exists out, resolves item out)
  /\ exists tzs : dict Z tzinfo,
       Forall2 resolves (guild_timezones (str 1) sample_document) tzs
       /\ run sample_platform (get_timezone 1 None) (idle sample_document [])
          = (Returned tzs,
             after [EvAcquire; EvLoad; EvRelease] (idle sample_document [])).
Proof.
  assert (Hwf : dict_wf (guild_timezones (str 1) sample_document)).
  { unfold dict_wf. simpl. repeat constructor; simpl; intuition discriminate. }
  assert (Hres : forall item, In item (guild_timezones (str 1) sample_document) ->
                   exists out, resolves item out).
  { simpl. intros item [<-|[<-|[<-|[]]]].
    - exists (10, {| zone_name := "UTC"; utc_offset_seconds := 0 |}).
      split; reflexivity.
    - exists (11, {| zone_name := "Etc/GMT"; utc_offset_seconds := 0 |}).
      split; reflexivity.
    - exists (12, {| zone_name := "Etc/GMT-9"; utc_offset_seconds := 32400 |}).
      split; reflexivity. }
  split; [exact Hwf|]. split; [exact Hres|].
  exact (get_timezone_all_returns_stored_items sample_platform
           sample_document [] 1 Hwf Hres).
Defined.

(** X7 at a guild whose second item is stale. *)
Lemma get_timezone_all_removes_first_stale_item_witness :
  let d := [("1", {| timezones := [("10", "utc"); ("11", "mars/phobos");
                                   ("12", "etc/gmt")];
                     time_message := None |})] in
  (guild_timezones (str 1) d
   = ([("10", "utc")] ++ ("11", "mars/phobos") :: [("12", "etc/gmt")])%list
   /\ dict_wf (guild_timezones (str 1) d)
   /\ Forall entry_ok [("10", "utc")]
   /\ pytz_timezone "mars/phobos" = None)
  /\ guild_timezones (str 1)
       (file (snd (run sample_platform (get_timezone 1 None) (idle d []))))
     = ([("10", "utc")] ++ [("12", "etc/gmt")])%list.
Proof.
  intros d.
  assert (Hwf : dict_wf (guild_timezones (str 1) d)).
  { unfold dict_wf. simpl. repeat constructor; simpl; intuition discriminate. }
  assert (Hok : Forall entry_ok [("10", "utc")]).
  { repeat constructor; simpl.
    - exists {| zone_name := "UTC"; utc_offset_seconds := 0 |}. reflexivity.
    - exists 10. reflexivity. }
  split; [repeat split; auto|].
  exact (proj1 (proj2 (get_timezone_all_removes_first_stale_item
                         sample_platform d [] 1 [("10", "utc")]
                         [("12", "etc/gmt")] "11" "mars/phobos"
                         eq_refl Hwf Hok eq_refl))).
Defined.

(** ** The groups of the display, member by member *)

Section GroupMembers.
Context {E : Externals}.

Lemma at_local_time_app time_now k items item :
  at_local_time time_now k (items ++ [item])
  = (at_local_time time_now k items
     ++ (if naive_local time_now (snd item) =? k then [item] else []))%list.
Proof. unfold at_local_time. now rewrite filter_app. Qed.

Lemma add_user_filters time_now seen acc item :
  groups_are_filters time_now seen acc ->
  groups_are_filters time_now (seen ++ [item]) (add_user time_now acc item).
Proof.
  intros Hacc k. unfold add_user.
  set (k0 := naive_local time_now (snd item)).
  rewrite at_local_time_app. fold k0.
  pose proof (Hacc k0) as Hk0. pose proof (Hacc k) as Hk.
  destruct (Z.eqb_spec k0 k) as [Heq|Hne].
  - subst k. clear Hk.
    destruct (dict_get k0 acc) as [users|] eqn:Hget.
    + rewrite dict_get_set_same.
      destruct (at_local_time time_now k0 seen) as [|x l]; [discriminate|].
      injection Hk0 as ->. reflexivity.
    + rewrite dict_get_set_same.
      destruct (at_local_time time_now k0 seen) as [|x l]; [|discriminate].
      reflexivity.
  - rewrite app_nil_r.
    destruct (dict_get k0 acc) as [users|];
      rewrite dict_get_set_other by congruence; exact Hk.
Qed.

Lemma users_by_timezones_filters time_now tzs :
  groups_are_filters time_now tzs (users_by_timezones time_now tzs).
Proof.
  unfold users_by_timezones.
  assert (Hgen : forall items seen acc,
            groups_are_filters time_now seen acc ->
            groups_are_filters time_now (seen ++ items)
              (fold_left (add_user time_now) items acc)).
  { induction items as [|item rest IH]; intros seen acc Hacc; simpl.
    - now rewrite app_nil_r.
    - replace (seen ++ item :: rest)%list with ((seen ++ [item]) ++ rest)%list
        by now rewrite <- app_assoc.
      apply IH. now apply add_user_filters. }
  apply (Hgen tzs [] []). intros k. reflexivity.
Qed.

Lemma flat_map_dict_set_append (k : Z) (users : list (Z * tzinfo))
    (item : Z * tzinfo) (acc : dict Z (list (Z * tzinfo))) :
  dict_get k acc = Some users ->
  Permutation (flat_map snd (dict_set k (users ++ [item])%list acc))
              (item :: flat_map snd acc).
Proof.
  induction acc as [|[k' us] t IH]; simpl; [discriminate|].
  destruct (Z.eqb_spec k' k) as [->|Hne].
  - intros [= ->]. simpl. rewrite <- app_assoc. simpl.
    symmetry. apply Permutation_middle.
  - intros Hget. simpl. rewrite (IH Hget).
    symmetry. apply Permutation_middle.
Qed.

Lemma flat_map_users_by_timezones time_now items acc :
  Permutation (flat_map snd (fold_left (add_user time_now) items acc))
              (flat_map snd acc ++ items).
Proof.
  revert acc. induction items as [|item rest IH]; intros acc; simpl.
  - now rewrite app_nil_r.
  - rewrite IH. unfold add_user.
    destruct (dict_get (naive_local time_now (snd item)) acc) as [users|] eqn:Hget.
    + rewrite (flat_map_dict_set_append _ _ _ _ Hget).
      simpl. apply Permutation_middle.
    + rewrite dict_set_absent by now apply dict_in_false.
      rewrite flat_map_app. simpl. now rewrite <- app_assoc.
Qed.

(** X8.  In the display every member of the mapping is listed once: the
    groups of [users_by_timezones_sorted], put end to end, are the items of
    the mapping in another order.  No group is empty, and each group lists
    the members at its local time in the order of the mapping. *)
Theorem display_lists_every_member_once
    (time_now : datetime) (tzs : dict Z tzinfo) :
  let groups := users_by_timezones_sorted time_now tzs in
  Permutation (flat_map snd groups) tzs
  /\ forall group, In group groups ->
       snd group <> []
       /\ snd group = at_local_time time_now (fst group) tzs.
Proof.
  intros groups.
  assert (Hperm : Permutation groups (users_by_timezones time_now tzs))
    by apply sorted_perm.
  split.
  - rewrite (Permutation_flat_map snd Hperm).
    unfold users_by_timezones.
    now rewrite flat_map_users_by_timezones.
  - intros [k users] Hin. simpl.
    apply (Permutation_in _ Hperm), in_dict_get in Hin.
    + rewrite (users_by_timezones_filters time_now tzs k) in Hin.
      destruct (at_local_time time_now k tzs); [discriminate|].
      injection Hin as <-. split; [discriminate | reflexivity].
    + apply users_by_timezones_grouped.
Qed.

End GroupMembers.

(** ** One whole tick *)

Lemma dict_del_filter {K V : Type} `{EqKey K} (k : K) (d : dict K V) :
  dict_del k d = filter (fun entry => negb (keq (fst entry) k)) d.
Proof.
  induction d as [|[k' v'] t IH]; simpl; auto.
  destruct (keq k' k); simpl; now rewrite IH.
Qed.

Lemma filter_twice {A : Type} (f g : A -> bool) (l : list A) :
  filter f (filter g l) = filter (fun x => g x && f x) l.
Proof.
  induction l as [|x t IH]; simpl; auto.
  destruct (g x); simpl; [destruct (f x)|]; now rewrite IH.
Qed.

Section WholeTick.
Context {E : Externals} (P : platform).

(** What the loop body does to the cache and to the stored messages, for
    any guild. *)
Lemma update_guild_effect (g : Z) (w : world) :
  locked w = false ->
  let w' := snd (run P (update_guild g) w) in
  time_message_cache w'
  = (if resolvable P g then time_message_cache w
     else dict_del g (time_message_cache w))
  /\ (forall g0 : Z,
        doc_time_message (str g0) (file w')
        = if negb (resolvable P g) && (g =? g0) then None
          else doc_time_message (str g0) (file w)).
Proof.
  intros Hfree w'. subst w'.
  destruct (resolvable P g) eqn:Hres; cbn [negb andb].
  - destruct (dict_get g (time_message_cache w)) as [msg|] eqn:Hmsg.
    + rewrite (run_update_guild_resolvable P g msg) by assumption.
      destruct (send_messages P msg g); [|now split].
      destruct (create_time_message_embed_keeps P g true w Hfree)
        as (Hnb & Hl & Hc & Hm).
      destruct (run P (create_time_message_embed g true) w) as [[em|e|] w1];
        simpl in *; [destruct (edit_raises P msg)| |congruence]; now split.
    + rewrite run_update_guild_not_cached by assumption. now split.
  - rewrite run_update_guild_unresolvable by assumption.
    pose proof (doc_time_message_after_remove P g w Hfree) as Htm.
    rewrite run_remove_time_message in * by assumption. cbn [snd] in *.
    split; [reflexivity|].
    intros g0. destruct (Z.eqb_spec g g0) as [->|Hne]; [exact Htm|].
    simpl.
    destruct (dict_in (str g) (file w)
              && match doc_time_message (str g) (file w) with
                 | Some _ => true | None => false end); simpl; auto.
    unfold doc_time_message.
    rewrite dict_get_del_message_other_guild; auto.
    intros Heq. now apply Hne, str_inj.
Qed.

Lemma fold_update_guild_effect (gs : list Z) (w : world) :
  locked w = false ->
  let w' := fold_left (fun w0 g0 => snd (run P (update_guild g0) w0)) gs w in
  time_message_cache w'
  = filter (fun entry => negb (evicted P gs (fst entry))) (time_message_cache w)
  /\ (forall g : Z,
        doc_time_message (str g) (file w')
        = if evicted P gs g then None else doc_time_message (str g) (file w)).
Proof.
  revert w. induction gs as [|g rest IH]; intros w Hfree; cbn [fold_left].
  - split.
    + simpl. symmetry. apply forallb_filter_id.
      now apply forallb_forall.
    + reflexivity.
  - destruct (update_guild_returns P g w Hfree) as [_ Hl].
    destruct (update_guild_effect g w Hfree) as [Hc Hm].
    destruct (IH _ Hl) as [IHc IHm]. split.
    + rewrite IHc, Hc. unfold evicted. cbn [existsb].
      destruct (resolvable P g); simpl.
      * reflexivity.
      * rewrite dict_del_filter, filter_twice.
        apply filter_ext. intros [k v]. simpl.
        rewrite negb_orb. f_equal. f_equal. apply Z.eqb_sym.
    + intros g0. rewrite IHm, Hm. unfold evicted. cbn [existsb].
      destruct (existsb _ rest); [now rewrite orb_true_r|].
      now rewrite orb_false_r.
Qed.

Lemma evicted_keys (cache : dict Z message) (g : Z) :
  dict_in g cache = true ->
  evicted P (keys cache) g = negb (resolvable P g).
Proof.
  intros Hin. apply dict_get_in_keys in Hin. unfold evicted.
  destruct (resolvable P g) eqn:Hres; simpl.
  - apply not_true_is_false. intros Hex.
    apply existsb_exists in Hex. destruct Hex as (g0 & _ & Hg0).
    apply andb_true_iff in Hg0. destruct Hg0 as [Hr Heq].
    apply Z.eqb_eq in Heq. subst g0. now rewrite Hres in Hr.
  - apply existsb_exists. exists g. split; auto.
    now rewrite Hres, Z.eqb_refl.
Qed.

Lemma evicted_resolvable (gs : list Z) (g : Z) :
  resolvable P g = true -> evicted P gs g = false.
Proof.
  intros Hres. apply not_true_is_false. intros Hex.
  apply existsb_exists in Hex. destruct Hex as (g0 & _ & Hg0).
  apply andb_true_iff in Hg0. destruct Hg0 as [Hr Heq].
  apply Z.eqb_eq in Heq. subst g0. now rewrite Hres in Hr.
Qed.

Lemma evicted_not_listed (gs : list Z) (g : Z) :
  ~ In g gs -> evicted P gs g = false.
Proof.
  intros Hnotin. apply not_true_is_false. intros Hex.
  apply existsb_exists in Hex. destruct Hex as (g0 & Hin & Hg0).
  apply andb_true_iff in Hg0. destruct Hg0 as [_ Heq].
  apply Z.eqb_eq in Heq. now subst g0.
Qed.

(** X9.  One tick, started with the lock free, returns with the lock free.
    Afterwards the message cache holds the entries of the guilds that
    resolve, in their order, and no other; the file holds no
    ["time_message"] for a cached guild that does not resolve, and the
    ["time_message"] it held for every guild that resolves and for every
    guild outside the cache. *)
Theorem refresh_tick_evicts_unresolvable_guilds (w : world) :
  locked w = false ->
  let r := run P time_message_updater_task w in
  fst r = Returned tt
  /\ locked (snd r) = false
  /\ time_message_cache (snd r)
     = filter (fun entry => resolvable P (fst entry)) (time_message_cache w)
  /\ (forall g : Z,
        dict_in g (time_message_cache w) = true -> resolvable P g = false ->
        doc_time_message (str g) (file (snd r)) = None)
  /\ (forall g : Z,
        resolvable P g = true \/ dict_in g (time_message_cache w) = false ->
        doc_time_message (str g) (file (snd r))
        = doc_time_message (str g) (file w)).
Proof.
  intros Hfree r. subst r.
  unfold time_message_updater_task. rewrite run_bind.
  change (run P (trigger CacheKeys) w)
    with (Returned (keys (time_message_cache w)), w).
  cbv beta iota.
  destruct (run_for_each_update_guild P (keys (time_message_cache w)) w Hfree)
    as [Hrun Hl].
  rewrite Hrun. cbn [fst snd].
  destruct (fold_update_guild_effect (keys (time_message_cache w)) w Hfree)
    as [Hc Hm].
  split; [reflexivity|]. split; [exact Hl|]. split; [|split].
  - rewrite Hc. apply filter_ext_in. intros [g msg] Hin. simpl.
    rewrite evicted_keys; [now rewrite negb_involutive|].
    now apply (in_items_dict_in g msg).
  - intros g Hin Hres. rewrite Hm, evicted_keys by assumption.
    now rewrite Hres.
  - intros g [Hres|Hout]; rewrite Hm.
    + now rewrite evicted_resolvable.
    + rewrite evicted_not_listed; auto.
      intros Hin. apply dict_get_in_keys in Hin. congruence.
Qed.

End WholeTick.

(** X9 at a cache with guild 1, which resolves, and guild 2, which does
    not. *)
Lemma refresh_tick_evicts_unresolvable_guilds_witness :
  locked (idle sample_document [(1, sample_message); (2, sample_message)])
  = false
  /\ time_message_cache
       (snd (run sample_platform time_message_updater_task
               (idle sample_document
                  [(1, sample_message); (2, sample_message)])))
     = [(1, sample_message)].
Proof.
  split; [reflexivity|].
  exact (proj1 (proj2 (proj2
           (refresh_tick_evicts_unresolvable_guilds sample_platform
              (idle sample_document [(1, sample_message); (2, sample_message)])
              eq_refl)))).
Defined.

(** * Further properties of the commands *)

Section MoreCommands.
Context {E : Externals} (P : platform).

(** X10.  When the author may set the timezone of the user named (no user
    is named, or the author has [manage_guild], or the author names
    themself) and [pytz] knows the identifier once it is case-folded and
    stripped, [timezone set] stores that normalised identifier for the
    user, sends the confirming reply, and [get_timezone] then returns the
    timezone. *)
Theorem timezone_set_stores_normalised_identifier
    (d : document) (cache : dict Z message) (ctx : context)
    (timezone : string) (user : option Z) (tz : tzinfo) :
  user = None \/ manage_guild ctx = true \/ user = Some (ctx_author ctx) ->
  pytz_timezone (strip (casefold timezone)) = Some tz ->
  let target := match user with Some u => u | None => ctx_author ctx end in
  let name := strip (casefold timezone) in
  let r := run P (timezone_set ctx timezone user) (idle d cache) in
  fst r = Returned tt
  /\ dict_get (str target) (guild_timezones (str (ctx_guild ctx)) (file (snd r)))
     = Some name
  /\ (exists d',
        history (snd r)
        = [EvLog (SettingTimezone target name);
           EvAcquire; EvLoad; EvDump d'; EvRelease;
           EvReply (mention target ++ "'s timezone is set to " ++ zone tz
                    ++ ". The current date and time is "
                    ++ strftime_zone (clock P 0) tz ++ ".") false])
  /\ fst (run P (get_timezone (ctx_guild ctx) (Some target)) (snd r))
     = Returned (Some tz).
Proof.
  intros Hallowed Hz target name r.
  assert (Hrun : r = run P (trigger (Log (SettingTimezone target name)) ;;
                            save_timezone (ctx_guild ctx) target name ;;
                            time_now <- trigger Now ;;
                            trigger (CtxReply
                              (mention target ++ "'s timezone is set to "
                               ++ zone tz ++ ". The current date and time is "
                               ++ strftime_zone time_now tz ++ ".") false))
                        (idle d cache)).
  { subst r target name. unfold timezone_set.
    destruct user as [u|].
    - destruct Hallowed as [Hn|[Hm|Hs]]; [discriminate| |].
      + rewrite Hm. cbn [negb andb]. now rewrite Hz.
      + injection Hs as ->. rewrite Z.eqb_refl, andb_false_r. now rewrite Hz.
    - now rewrite Hz. }
  rewrite Hrun. clear Hrun r.
  rewrite run_bind. simpl run at 1. cbv beta iota.
  rewrite run_bind, run_save_timezone by reflexivity.
  cbv beta iota zeta.
  destruct (saved_document_holds (ctx_guild ctx) target name d) as [Hin Hget].
  remember (get_timezone (ctx_guild ctx) (Some target)) as getter eqn:Hgetter.
  simpl. split; [reflexivity|]. split; [exact Hget|]. split.
  - eexists. reflexivity.
  - subst getter.
    rewrite (get_timezone_of_stored P (ctx_guild ctx) target name tz);
      simpl; auto.
Qed.

(** X11.  An author without [manage_guild] who names another user gets the
    rejection and nothing else happens: whatever the identifier, the file
    is neither read nor written. *)
Theorem timezone_set_refuses_other_users
    (d : document) (cache : dict Z message) (ctx : context)
    (timezone : string) (u : Z) :
  manage_guild ctx = false ->
  u <> ctx_author ctx ->
  run P (timezone_set ctx timezone (Some u)) (idle d cache)
  = (Returned tt,
     after [EvReply "You do not have permission to set the timezone for others."
              true] (idle d cache)).
Proof.
  intros Hperm Hother. unfold timezone_set. rewrite Hperm.
  assert (Hneq : (ctx_author ctx =? u) = false) by (apply Z.eqb_neq; congruence).
  rewrite Hneq. reflexivity.
Qed.

Lemma run_time_message_clear_cached (ctx : context) (msg : message) (w : world) :
  dict_get (ctx_guild ctx) (time_message_cache w) = Some msg ->
  run P (time_message_clear ctx) w
  = let w1 := match delete_raises P msg with
              | None => observe (EvDelete msg) w
              | Some e => observe (EvLog (DeleteFailed (ctx_guild ctx) e)) w
              end in
    match run P (remove_time_message (ctx_guild ctx)) w1 with
    | (Returned _, w2) =>
        (Returned tt, observe (EvReply "Persistent time message cleared." false) w2)
    | (Raised e, w2) => (Raised e, w2)
    | (Blocked, w2) => (Blocked, w2)
    end.
Proof.
  intros Hmsg. unfold time_message_clear.
  rewrite run_bind. simpl run at 1. rewrite Hmsg.
  rewrite run_bind, run_try_except.
  assert (Hdel : run P (checked (MessageDelete msg)) w
                 = match delete_raises P msg with
                   | None => (Returned tt, observe (EvDelete msg) w)
                   | Some e => (Raised e, w)
                   end).
  { unfold checked, trigger. simpl. now destruct (delete_raises P msg). }
  rewrite Hdel.
  destruct (delete_raises P msg) as [e|]; cbv beta iota zeta.
  - change (run P (trigger (Log (DeleteFailed (ctx_guild ctx) e))) w)
      with (Returned tt, observe (EvLog (DeleteFailed (ctx_guild ctx) e)) w).
    cbv beta iota. rewrite run_bind.
    destruct (run P (remove_time_message (ctx_guild ctx))
                (observe (EvLog (DeleteFailed (ctx_guild ctx) e)) w))
      as [[[]|e'|] w2]; reflexivity.
  - rewrite run_bind.
    destruct (run P (remove_time_message (ctx_guild ctx))
                (observe (EvDelete msg) w))
      as [[[]|e'|] w2]; reflexivity.
Qed.

(** X12.  With a cache entry for the guild, [timemessage clear] returns
    after dropping the cache entry and the stored ["time_message"] of the
    guild, whether or not the platform deletes the message: the deletion
    is seen first when it succeeds, its failure is logged first otherwise;
    the reply comes last.  Every guild keeps its timezones, and a second
    [timemessage clear] only replies that no persistent time message
    exists. *)
Theorem time_message_clear_with_cache_entry
    (d : document) (cache : dict Z message) (ctx : context) (msg : message) :
  dict_get (ctx_guild ctx) cache = Some msg ->
  let r := run P (time_message_clear ctx) (idle d cache) in
  fst r = Returned tt
  /\ dict_get (ctx_guild ctx) (time_message_cache (snd r)) = None
  /\ doc_time_message (str (ctx_guild ctx)) (file (snd r)) = None
  /\ (forall g, guild_timezones g (file (snd r)) = guild_timezones g d)
  /\ (exists middle,
        history (snd r)
        = (match delete_raises P msg with
           | None => EvDelete msg
           | Some e => EvLog (DeleteFailed (ctx_guild ctx) e)
           end :: middle
           ++ [EvReply "Persistent time message cleared." false])%list)
  /\ run P (time_message_clear ctx) (snd r)
     = (Returned tt,
        after [EvReply "No persistent time message exists." true] (snd r)).
Proof.
  intros Hmsg r. subst r.
  rewrite (run_time_message_clear_cached ctx msg) by exact Hmsg.
  cbv zeta.
  set (w1 := match delete_raises P msg with
             | None => observe (EvDelete msg) (idle d cache)
             | Some e =>
                 observe (EvLog (DeleteFailed (ctx_guild ctx) e)) (idle d cache)
             end).
  assert (Hfree : locked w1 = false) by (subst w1; now destruct (delete_raises P msg)).
  assert (Hfile : file w1 = d) by (subst w1; now destruct (delete_raises P msg)).
  assert (Hhist : history w1
                  = [match delete_raises P msg with
                     | None => EvDelete msg
                     | Some e => EvLog (DeleteFailed (ctx_guild ctx) e)
                     end])
    by (subst w1; now destruct (delete_raises P msg)).
  pose proof (doc_time_message_after_remove P (ctx_guild ctx) w1 Hfree) as Htm.
  rewrite run_remove_time_message in * by assumption.
  cbn [fst snd] in *.
  assert (Hcache : dict_get (ctx_guild ctx)
                     (dict_del (ctx_guild ctx) (time_message_cache w1)) = None)
    by apply dict_get_del_same.
  split; [reflexivity|]. split; [exact Hcache|]. split; [exact Htm|].
  split; [|split].
  - intros g. simpl. rewrite Hfile.
    destruct (dict_in (str (ctx_guild ctx)) d
              && match doc_time_message (str (ctx_guild ctx)) d with
                 | Some _ => true | None => false end);
      simpl; rewrite ?Hfile; auto.
    apply guild_timezones_del_message_any.
  - simpl. rewrite Hfile.
    destruct (dict_in (str (ctx_guild ctx)) d
              && match doc_time_message (str (ctx_guild ctx)) d with
                 | Some _ => true | None => false end); simpl;
      rewrite Hhist; simpl.
    + exists [EvAcquire; EvLoad;
              EvDump (del_guild_time_message (str (ctx_guild ctx)) d);
              EvRelease]. reflexivity.
    + exists [EvAcquire; EvLoad; EvRelease]. reflexivity.
  - unfold time_message_clear. rewrite run_bind. simpl run at 1.
    simpl time_message_cache. rewrite Hcache. reflexivity.
Qed.

End MoreCommands.

(** X10 at user 10 of guild 1 and the input ["  Etc/GMT-9 "]. *)
Lemma timezone_set_stores_normalised_identifier_witness :
  ((None : option Z) = None \/ false = true
   \/ (None : option Z) = Some 10)
  /\ pytz_timezone (strip (casefold "  Etc/GMT-9 "))
     = Some {| zone_name := "Etc/GMT-9"; utc_offset_seconds := 32400 |}
  /\ dict_get (str 10)
       (guild_timezones (str 1)
          (file (snd (run sample_platform
                        (timezone_set {| ctx_guild := 1; ctx_author := 10;
                                         manage_guild := false |}
                           "  Etc/GMT-9 " None)
                        (idle sample_document [])))))
     = Some "etc/gmt-9".
Proof.
  split; [now left|]. split; [reflexivity|].
  exact (proj1 (proj2 (timezone_set_stores_normalised_identifier
                         sample_platform sample_document []
                         {| ctx_guild := 1; ctx_author := 10;
                            manage_guild := false |}
                         "  Etc/GMT-9 " None
                         {| zone_name := "Etc/GMT-9";
                            utc_offset_seconds := 32400 |}
                         (or_introl eq_refl) eq_refl))).
Defined.

(** X11 at author 10 naming user 11. *)
Lemma timezone_set_refuses_other_users_witness :
  false = false /\ 11 <> 10
  /\ file (snd (run sample_platform
                  (timezone_set {| ctx_guild := 1; ctx_author := 10;
                                   manage_guild := false |} "utc" (Some 11))
                  (idle sample_document [])))
     = sample_document.
Proof.
  assert (Hne : 11 <> 10) by discriminate.
  split; [reflexivity|]. split; [exact Hne|].
  exact (f_equal (fun r => file (snd r))
           (timezone_set_refuses_other_users sample_platform sample_document []
              {| ctx_guild := 1; ctx_author := 10; manage_guild := false |}
              "utc" 11 eq_refl Hne)).
Defined.

(** X12 at guild 1 with its message in the cache. *)
Lemma time_message_clear_with_cache_entry_witness :
  dict_get 1 [(1, sample_message)] = Some sample_message
  /\ doc_time_message (str 1)
       (file (snd (run sample_platform
                     (time_message_clear {| ctx_guild := 1; ctx_author := 10;
                                            manage_guild := true |})
                     (idle sample_document [(1, sample_message)]))))
     = None.
Proof.
  split; [reflexivity|].
  exact (proj1 (proj2 (proj2
           (time_message_clear_with_cache_entry sample_platform
              sample_document [(1, sample_message)]
              {| ctx_guild := 1; ctx_author := 10; manage_guild := true |}
              sample_message eq_refl)))).
Defined.

(** * Autocompletion *)

Lemma ascii_compare_trans_le (a b c : ascii) :
  Ascii.compare a b <> Gt -> Ascii.compare b c <> Gt -> Ascii.compare a c <> Gt.
Proof.
  unfold Ascii.compare. rewrite !N.compare_le_iff. apply N.le_trans.
Qed.


Section AutocompleteFacts.
Context {E : Externals}.




End AutocompleteFacts.

(** * The commands that read a timezone *)

Section ReadingFacts.
Context {E : Externals} (P : platform).

(** The process after [timezone set] accepted its input. *)
Lemma run_timezone_set_accepted
    (ctx : context) (timezone : string) (user : option Z) (tz : tzinfo)
    (w : world) :
  locked w = false ->
  user = None \/ manage_guild ctx = true \/ user = Some (ctx_author ctx) ->
  pytz_timezone (strip (casefold timezone)) = Some tz ->
  let target := match user with Some u => u | None => ctx_author ctx end in
  let name := strip (casefold timezone) in
  let d' := set_user_timezone (str (ctx_guild ctx)) (str target) name
              (ensure_guild (str (ctx_guild ctx)) (file w)) in
  run P (timezone_set ctx timezone user) w
  = (Returned tt,
     observe
       (EvReply (mention target ++ "'s timezone is set to " ++ zone tz
                 ++ ". The current date and time is "
                 ++ strftime_zone (clock P (clock_reads w)) tz ++ ".") false)
       (tick_clock
          (after [EvLog (SettingTimezone target name);
                  EvAcquire; EvLoad; EvDump d'; EvRelease]
                 (set_file d' w)))).
Proof.
  intros Hfree Hallowed Hz target name d'.
  assert (Hrun : run P (timezone_set ctx timezone user) w
                 = run P (trigger (Log (SettingTimezone target name)) ;;
                          save_timezone (ctx_guild ctx) target name ;;
                          time_now <- trigger Now ;;
                          trigger (CtxReply
                            (mention target ++ "'s timezone is set to "
                             ++ zone tz ++ ". The current date and time is "
                             ++ strftime_zone time_now tz ++ ".") false)) w).
  { subst target name. unfold timezone_set.
    destruct user as [u|].
    - destruct Hallowed as [Hn|[Hm|Hs]]; [discriminate| |].
      + rewrite Hm. cbn [negb andb]. now rewrite Hz.
      + injection Hs as ->. rewrite Z.eqb_refl, andb_false_r. now rewrite Hz.
    - now rewrite Hz. }
  rewrite Hrun. clear Hrun.
  rewrite run_bind. simpl run at 1. cbv beta iota.
  rewrite run_bind, run_save_timezone by exact Hfree.
  cbv beta iota zeta. simpl. f_equal. world_eq Hfree.
Qed.

(** X14.  After [timezone set] accepted an identifier for the author,
    [timezone current] answers with the zone of that identifier and the
    time there, and leaves the file as [timezone set] wrote it. *)
Theorem timezone_set_then_timezone_current
    (d : document) (cache : dict Z message) (ctx : context)
    (timezone : string) (tz : tzinfo) :
  pytz_timezone (strip (casefold timezone)) = Some tz ->
  let set := run P (timezone_set ctx timezone None) (idle d cache) in
  let r := run P (timezone_set ctx timezone None ;; timezone_current ctx)
             (idle d cache) in
  fst r = Returned tt
  /\ file (snd r) = file (snd set)
  /\ history (snd r)
     = (history (snd set)
        ++ [EvAcquire; EvLoad; EvRelease;
            EvReply ("Your timezone is set to " ++ zone tz
                     ++ ". The current date and time is "
                     ++ strftime_zone (clock P 1) tz ++ ".") false])%list.
Proof.
  intros Hz set r. subst set r.
  rewrite run_bind.
  rewrite (run_timezone_set_accepted ctx timezone None tz (idle d cache)
             eq_refl (or_introl eq_refl) Hz).
  cbv beta iota zeta. unfold timezone_current. rewrite run_bind.
  destruct (saved_document_holds (ctx_guild ctx) (ctx_author ctx)
              (strip (casefold timezone)) d) as [Hin Hget].
  rewrite (get_timezone_of_stored P (ctx_guild ctx) (ctx_author ctx)
             (strip (casefold timezone)) tz); auto.
Qed.

(** X15.  [timein] never touches the file or the lock: it only replies.
    It rejects an input exactly when [timezone set] rejects it for the
    author. *)
Theorem timein_only_replies
    (d : document) (cache : dict Z message) (ctx : context)
    (timezone : string) :
  let r := run P (timein ctx timezone) (idle d cache) in
  let rejection := [EvReply invalid_timezone_text true] in
  fst r = Returned tt
  /\ file (snd r) = d
  /\ (exists text ephemeral, history (snd r) = [EvReply text ephemeral])
  /\ (history (snd r) = rejection
      <-> history (snd (run P (timezone_set ctx timezone None) (idle d cache)))
          = rejection).
Proof.
  intros r rejection. subst r rejection. unfold timein.
  destruct (pytz_timezone (strip (casefold timezone))) as [tz|] eqn:Hz.
  - rewrite (run_timezone_set_accepted ctx timezone None tz (idle d cache)
               eq_refl (or_introl eq_refl) Hz).
    simpl. repeat split; eauto; discriminate.
  - unfold timezone_set. rewrite Hz. simpl. repeat split; eauto.
Qed.

End ReadingFacts.

(** X14 at the input ["  Etc/GMT-9 "]. *)
Lemma timezone_set_then_timezone_current_witness :
  pytz_timezone (strip (casefold "  Etc/GMT-9 "))
  = Some {| zone_name := "Etc/GMT-9"; utc_offset_seconds := 32400 |}
  /\ fst (run sample_platform
            (timezone_set {| ctx_guild := 1; ctx_author := 10;
                             manage_guild := false |} "  Etc/GMT-9 " None ;;
             timezone_current {| ctx_guild := 1; ctx_author := 10;
                                 manage_guild := false |})
            (idle stale_document []))
     = Returned tt.
Proof.
  split; [reflexivity|].
  exact (proj1 (timezone_set_then_timezone_current sample_platform
                  stale_document []
                  {| ctx_guild := 1; ctx_author := 10; manage_guild := false |}
                  "  Etc/GMT-9 "
                  {| zone_name := "Etc/GMT-9"; utc_offset_seconds := 32400 |}
                  eq_refl)).
Defined.

(** * The commands that post messages *)

Section ClearFacts.
Context {E : Externals} (P : platform).


End ClearFacts.


Section SendFacts.
Context {E : Externals} (P : platform) (G : gateway).

(** With accepted items only, the embed is made after one reading of the
    file and one of the clock. *)
Lemma create_time_message_embed_returns (g : Z) (b : bool) (w : world) :
  locked w = false ->
  Forall entry_ok (guild_timezones (str g) (file w)) ->
  exists em,
    run P (create_time_message_embed g b) w
    = (Returned em, tick_clock (after [EvAcquire; EvLoad; EvRelease] w)).
Proof.
  intros Hfree Hok.
  destruct (run_get_timezone_all_ok P g w Hfree Hok) as (tzs & Hrun & _).
  unfold create_time_message_embed. rewrite run_bind, Hrun.
  simpl. eauto.
Qed.

Lemma after_delete_keeps (guild : Z) (w : world) :
  file (after_delete P guild w) = file w
  /\ locked (after_delete P guild w) = locked w
  /\ time_message_cache (after_delete P guild w) = time_message_cache w
  /\ clock_reads (after_delete P guild w) = clock_reads w.
Proof.
  unfold after_delete.
  destruct (dict_get guild (time_message_cache w)) as [old|]; auto.
  destruct (delete_raises P old); auto.
Qed.

Lemma run_delete_cached (guild : Z) (old : message) (w : world) :
  run P (try_except (checked (MessageDelete old))
           (fun e => trigger (Log (DeleteFailed guild e)))) w
  = (Returned tt,
     match delete_raises P old with
     | None => observe (EvDelete old) w
     | Some e => observe (EvLog (DeleteFailed guild e)) w
     end).
Proof.
  unfold checked, trigger. simpl. now destruct (delete_raises P old).
Qed.

(** The first half of [timemessage send], up to the embed. *)
Lemma time_message_send_until_send
    (ctx : context) (ctx_channel : Z) (channel : option Z) (s : session) :
  locked (core s) = false ->
  Forall entry_ok (guild_timezones (str (ctx_guild ctx)) (file (core s))) ->
  exists em,
    time_message_send P G ctx ctx_channel channel s
    = let w := tick_clock (after [EvAcquire; EvLoad; EvRelease]
                             (after_delete P (ctx_guild ctx) (core s))) in
      let ch := match channel with Some c => c | None => ctx_channel end in
      let s1 := {| core := w; journal := journal s |} in
      match send_result G ch with
      | inl HTTPException =>
          lift P (trigger (CtxReply
            "Failed to send the persistent time message." true)) s1
      | inl e => (Raised e, s1)
      | inr id =>
          let m := {| channel_id := ch; message_id := id |} in
          task_bind (take_note (Sent m em)) (fun _ =>
          task_bind (lift P (save_time_message (ctx_guild ctx) ch id)) (fun _ =>
          task_bind (cache_set (ctx_guild ctx) m) (fun _ =>
          task_bind (lift P (trigger (CtxReply
            ("Persistent time message sent in " ++ channel_mention ch ++ ".")
            false))) (fun _ =>
          if manage_messages G ch (ctx_guild ctx) then
            task_bind (task_checked (pin_raises G m)) (fun _ =>
            take_note (Pinned m))
          else task_ret tt)))) s1
      end.
Proof.
  intros Hfree Hok.
  destruct (after_delete_keeps (ctx_guild ctx) (core s)) as (Hf & Hl & Hc & Hk).
  destruct (create_time_message_embed_returns (ctx_guild ctx) true
              (after_delete P (ctx_guild ctx) (core s))) as [em Hem].
  { now rewrite Hl. }
  { now rewrite Hf. }
  exists em. unfold time_message_send.
  unfold task_bind at 1. unfold lift at 1.
  change (run P (trigger (CacheGet (ctx_guild ctx))) (core s))
    with (Returned (dict_get (ctx_guild ctx) (time_message_cache (core s))),
          core s).
  cbn [fst snd]. unfold task_bind at 1.
  assert (Hdel : (match dict_get (ctx_guild ctx) (time_message_cache (core s)) with
                  | Some old =>
                      lift P (try_except (checked (MessageDelete old))
                                (fun e => trigger
                                   (Log (DeleteFailed (ctx_guild ctx) e))))
                  | None => task_ret tt
                  end) {| core := core s; journal := journal s |}
                 = (Returned tt,
                    {| core := after_delete P (ctx_guild ctx) (core s);
                       journal := journal s |})).
  { unfold after_delete.
    destruct (dict_get (ctx_guild ctx) (time_message_cache (core s))) as [old|].
    - unfold lift. cbn [core journal]. now rewrite run_delete_cached.
    - reflexivity. }
  rewrite Hdel. unfold task_bind at 1. unfold lift at 1. cbn [core journal].
  rewrite Hem. cbn [fst snd]. cbv zeta.
  destruct (send_result G match channel with Some c => c | None => ctx_channel end)
    as [[]|id]; reflexivity.
Qed.

End SendFacts.

Section SendOutcome.
Context {E : Externals} (P : platform) (G : gateway).



(** X18.  When the items stored for the guild are accepted and
    [channel.send] raises [HTTPException], [timemessage send] replies that
    it failed and returns: the file and the cache are what they were, so
    they still name the earlier message, although that message has been
    deleted when the platform allowed it. *)
Theorem time_message_send_failure_keeps_the_old_record
    (d : document) (cache : dict Z message) (ctx : context)
    (ctx_channel : Z) (channel : option Z) :
  Forall entry_ok (guild_timezones (str (ctx_guild ctx)) d) ->
  send_result G (match channel with Some c => c | None => ctx_channel end)
  = inl HTTPException ->
  let r := time_message_send P G ctx ctx_channel channel
             {| core := idle d cache; journal := [] |} in
  fst r = Returned tt
  /\ file (core (snd r)) = d
  /\ time_message_cache (core (snd r)) = cache
  /\ journal (snd r) = []
  /\ (exists before,
        history (core (snd r))
        = (before ++ [EvReply "Failed to send the persistent time message."
                        true])%list)
  /\ (forall old, dict_get (ctx_guild ctx) cache = Some old ->
        delete_raises P old = None ->
        hd_error (history (core (snd r))) = Some (EvDelete old)).
Proof.
  intros Hok Hsend r. subst r.
  destruct (time_message_send_until_send P G ctx ctx_channel channel
              {| core := idle d cache; journal := [] |} eq_refl Hok)
    as [em Hrun].
  rewrite Hrun. clear Hrun. cbv zeta. rewrite Hsend.
  destruct (after_delete_keeps P (ctx_guild ctx) (idle d cache))
    as (Hf & Hl & Hc & Hk).
  unfold lift. cbn [core journal fst snd]. simpl run.
  cbn [fst snd core journal file time_message_cache observe tick_clock after
       history].
  split; [reflexivity|]. split; [exact Hf|]. split; [exact Hc|].
  split; [reflexivity|]. split.
  - eexists. reflexivity.
  - intros old Hold Hdel. unfold after_delete.
    cbn [time_message_cache idle]. rewrite Hold, Hdel. reflexivity.
Qed.

End SendOutcome.

Lemma sample_document_entries_ok :
  Forall entry_ok (guild_timezones (str 1) sample_document).
Proof.
  repeat constructor; simpl; eexists; reflexivity.
Defined.


Lemma time_message_send_failure_keeps_the_old_record_witness :
  Forall entry_ok (guild_timezones (str 1) sample_document)
  /\ send_result lost_gateway 5 = inl HTTPException
  /\ fst (time_message_send sample_platform lost_gateway
            {| ctx_guild := 1; ctx_author := 10; manage_guild := true |}
            5 None
            {| core := idle sample_document [(1, sample_message)];
               journal := [] |})
     = Returned tt.
Proof.
  split; [exact sample_document_entries_ok|]. split; [reflexivity|].
  exact (proj1 (time_message_send_failure_keeps_the_old_record
                  sample_platform lost_gateway
                  sample_document [(1, sample_message)]
                  {| ctx_guild := 1; ctx_author := 10; manage_guild := true |}
                  5 None sample_document_entries_ok eq_refl)).
Defined.

(** ** Filling the cache when the cog is loaded *)

Section PopulateFacts.
Context {E : Externals} (P : platform) (G : gateway).

(** One pass of the loop, for an item the file still holds. *)
Lemma populate_guild_effect (g : Z) (gd : guild_data) (s : session) :
  locked (core s) = false ->
  dict_get (str g) (file (core s)) = Some gd ->
  populate_guild P G (str g, gd) s
  = match time_message gd with
    | None => (Returned tt, s)
    | Some (channel, id) =>
        if fetchable G channel id then
          (Returned tt,
           {| core := set_cache
                        (dict_set g {| channel_id := channel; message_id := id |}
                           (time_message_cache (core s))) (core s);
              journal := journal s |})
        else
          let d := del_guild_time_message (str g) (file (core s)) in
          (Returned tt,
           {| core := set_cache (dict_del g (time_message_cache (core s)))
                        (after [EvAcquire; EvLoad; EvDump d; EvRelease]
                           (set_file d (core s)));
              journal := (journal s
                          ++ [(List.length (history (core s)),
                               TimeMessageNotFound (str g))])%list |})
    end.
Proof.
  intros Hfree Hget. unfold populate_guild. cbn [fst snd].
  destruct (time_message gd) as [[channel id]|] eqn:Htm; [|reflexivity].
  rewrite py_int_str.
  assert (Hhandler :
    task_bind (take_note (TimeMessageNotFound (str g)))
      (fun _ => lift P (remove_time_message g)) s
    = let d := del_guild_time_message (str g) (file (core s)) in
      (Returned tt,
       {| core := set_cache (dict_del g (time_message_cache (core s)))
                    (after [EvAcquire; EvLoad; EvDump d; EvRelease]
                       (set_file d (core s)));
          journal := (journal s
                      ++ [(List.length (history (core s)),
                           TimeMessageNotFound (str g))])%list |})).
  { unfold task_bind, take_note, lift. cbn [core journal].
    rewrite (run_remove_time_message P g (core s) Hfree).
    unfold dict_in, doc_time_message. rewrite Hget, Htm. reflexivity. }
  unfold fetchable, task_try.
  destruct (get_channel G channel); cbn [orb andb].
  - unfold task_bind at 1. unfold task_ret at 1.
    unfold task_bind at 1.
    destruct (fetch_message_raises G channel id) as [e|];
      unfold task_checked, task_raise, task_ret; [exact Hhandler|reflexivity].
  - unfold task_bind at 1.
    destruct (fetch_channel_raises G channel) as [e|];
      unfold task_checked at 1, task_raise, task_ret; [exact Hhandler|].
    unfold task_bind at 1.
    destruct (fetch_message_raises G channel id) as [e|];
      unfold task_checked, task_raise, task_ret; [exact Hhandler|reflexivity].
Qed.

(** The loop over items the file holds, all under distinct numerals. *)
Lemma populate_loop_effect (items : list (string * guild_data)) :
  forall s : session,
  locked (core s) = false ->
  NoDup (map fst items) ->
  (forall item, In item items ->
     (exists n, fst item = str n)
     /\ dict_get (fst item) (file (core s)) = Some (snd item)) ->
  let r := task_for_each items (populate_guild P G) s in
  fst r = Returned tt
  /\ locked (core (snd r)) = false
  /\ (forall g0 : string,
        guild_timezones g0 (file (core (snd r)))
        = guild_timezones g0 (file (core s)))
  /\ (forall g : Z, ~ In (str g) (map fst items) ->
        dict_get g (time_message_cache (core (snd r)))
        = dict_get g (time_message_cache (core s))
        /\ dict_get (str g) (file (core (snd r)))
           = dict_get (str g) (file (core s)))
  /\ (forall n, In n (map snd (journal s)) ->
        In n (map snd (journal (snd r))))
  /\ (forall (g : Z) (gd : guild_data), In (str g, gd) items ->
        match time_message gd with
        | Some (channel, id) =>
            if fetchable G channel id then
              dict_get g (time_message_cache (core (snd r)))
              = Some {| channel_id := channel; message_id := id |}
              /\ doc_time_message (str g) (file (core (snd r)))
                 = Some (channel, id)
            else
              dict_get g (time_message_cache (core (snd r))) = None
              /\ doc_time_message (str g) (file (core (snd r))) = None
              /\ In (TimeMessageNotFound (str g))
                    (map snd (journal (snd r)))
        | None =>
            dict_get g (time_message_cache (core (snd r)))
            = dict_get g (time_message_cache (core s))
            /\ doc_time_message (str g) (file (core (snd r))) = None
        end).
Proof.
  induction items as [|[k gd] rest IH]; intros s Hfree Hnd Hitems.
  - simpl. repeat split; auto. intros g gd [].
  - destruct (Hitems (k, gd) (or_introl eq_refl)) as [[g Hk] Hget].
    cbn [fst snd] in Hk, Hget. subst k.
    inversion Hnd as [|? ? Hnotin Hnd']; subst.
    cbn [map fst] in Hnotin.
    (* the state after the first item *)
    set (s1 := match time_message gd with
               | None => s
               | Some (channel, id) =>
                   if fetchable G channel id then
                     {| core := set_cache
                          (dict_set g {| channel_id := channel; message_id := id |}
                             (time_message_cache (core s))) (core s);
                        journal := journal s |}
                   else
                     {| core := set_cache (dict_del g (time_message_cache (core s)))
                          (after [EvAcquire; EvLoad;
                                  EvDump (del_guild_time_message (str g) (file (core s)));
                                  EvRelease]
                             (set_file (del_guild_time_message (str g) (file (core s)))
                                (core s)));
                        journal := (journal s
                                    ++ [(List.length (history (core s)),
                                         TimeMessageNotFound (str g))])%list |}
               end).
    assert (Hrun : task_for_each ((str g, gd) :: rest) (populate_guild P G) s
                   = task_for_each rest (populate_guild P G) s1).
    { cbn [task_for_each]. unfold task_bind at 1.
      rewrite (populate_guild_effect g gd s Hfree Hget).
      unfold s1. destruct (time_message gd) as [[channel id]|]; auto.
      destruct (fetchable G channel id); reflexivity. }
    rewrite Hrun. clear Hrun.
    (* what the first item changed *)
    assert (Hfree1 : locked (core s1) = false).
    { unfold s1. destruct (time_message gd) as [[channel id]|]; auto.
      destruct (fetchable G channel id); simpl; auto. }
    assert (Htz1 : forall g0, guild_timezones g0 (file (core s1))
                              = guild_timezones g0 (file (core s))).
    { intros g0. unfold s1. destruct (time_message gd) as [[channel id]|]; auto.
      destruct (fetchable G channel id); simpl; auto.
      apply guild_timezones_del_message_any. }
    assert (Hother1 : forall g0 : Z, g0 <> g ->
              dict_get g0 (time_message_cache (core s1))
              = dict_get g0 (time_message_cache (core s))
              /\ dict_get (str g0) (file (core s1))
                 = dict_get (str g0) (file (core s))).
    { intros g0 Hne.
      assert (Hsne : str g0 <> str g) by (intros Heq; now apply Hne, str_inj).
      unfold s1. destruct (time_message gd) as [[channel id]|]; auto.
      destruct (fetchable G channel id); simpl; split; auto.
      - now apply dict_get_set_other.
      - now apply dict_get_del_other.
      - now apply dict_get_del_message_other_guild. }
    assert (Hjournal1 : forall n, In n (map snd (journal s)) ->
                                  In n (map snd (journal s1))).
    { intros n Hn. unfold s1. destruct (time_message gd) as [[channel id]|]; auto.
      destruct (fetchable G channel id); simpl; auto.
      rewrite map_app. apply in_or_app. now left. }
    assert (Hhead1 :
      match time_message gd with
      | Some (channel, id) =>
          if fetchable G channel id then
            dict_get g (time_message_cache (core s1))
            = Some {| channel_id := channel; message_id := id |}
            /\ doc_time_message (str g) (file (core s1)) = Some (channel, id)
          else
            dict_get g (time_message_cache (core s1)) = None
            /\ doc_time_message (str g) (file (core s1)) = None
            /\ In (TimeMessageNotFound (str g)) (map snd (journal s1))
      | None =>
          dict_get g (time_message_cache (core s1))
          = dict_get g (time_message_cache (core s))
          /\ doc_time_message (str g) (file (core s1)) = None
      end).
    { unfold s1. destruct (time_message gd) as [[channel id]|] eqn:Htm.
      - destruct (fetchable G channel id); simpl.
        + split; [apply dict_get_set_same|].
          unfold doc_time_message. now rewrite Hget.
        + split; [apply dict_get_del_same|].
          split; [apply doc_time_message_del_message|].
          rewrite map_app. apply in_or_app. right. simpl. auto.
      - split; auto. unfold doc_time_message. now rewrite Hget. }
    assert (Hitems1 : forall item, In item rest ->
              (exists n, fst item = str n)
              /\ dict_get (fst item) (file (core s1)) = Some (snd item)).
    { intros item Hin.
      destruct (Hitems item (or_intror Hin)) as [[n Hn] Hg]. split; eauto.
      rewrite Hn in *.
      assert (Hne : n <> g).
      { intros ->. apply Hnotin. rewrite <- Hn. now apply in_map. }
      now rewrite (proj2 (Hother1 n Hne)). }
    clearbody s1.
    destruct (IH s1 Hfree1 Hnd' Hitems1)
      as (Hret & Hl & Htz & Hframe & Hj & Hall).
    cbv zeta in Hret, Hl, Htz, Hframe, Hj, Hall.
    set (r := task_for_each rest (populate_guild P G) s1) in *.
    split; [exact Hret|]. split; [exact Hl|].
    split; [intros g0; now rewrite Htz, Htz1|].
    split; [|split].
    + intros g0 Hnot. cbn [map fst] in Hnot.
      assert (Hne : g0 <> g) by (intros ->; apply Hnot; now left).
      assert (Hrest : ~ In (str g0) (map fst rest))
        by (intros Hin; apply Hnot; now right).
      destruct (Hframe g0 Hrest) as [Hc Hf].
      destruct (Hother1 g0 Hne) as [Hc1 Hf1].
      split; congruence.
    + intros n Hn. auto.
    + intros g0 gd0 [Heq|Hin].
      * injection Heq as Hg0 ->. apply str_inj in Hg0. subst g0.
        destruct (Hframe g Hnotin) as [Hc Hf].
        unfold doc_time_message in *. rewrite Hc, Hf.
        destruct (time_message gd0) as [[channel id]|]; auto.
        destruct (fetchable G channel id); auto.
        destruct Hhead1 as (? & ? & ?). auto.
      * specialize (Hall g0 gd0 Hin).
        assert (Hne : g0 <> g).
        { intros ->. apply Hnotin.
          change (str g) with (fst (str g, gd0)). now apply in_map. }
        destruct (time_message gd0) as [[channel id]|]; auto.
        destruct Hall as [Hc Hd]. split; auto.
        rewrite Hc. now apply Hother1.
Qed.

(** X19.  When the file is a dict whose keys are numerals of guild ids,
    [populate_time_message_cache] returns with the lock free and the cache is
    the stored messages that the platform can still fetch: a guild whose
    stored pair is fetchable is cached under that pair and keeps it in the
    file; a guild whose pair is not fetchable is not cached, loses the pair
    from the file and is named in a warning; a guild with no stored pair is
    not cached.  No timezone changes. *)
Theorem populate_time_message_cache_reconciles (d : document) :
  dict_wf d ->
  (forall k, In k (keys d) -> exists n, k = str n) ->
  let r := populate_time_message_cache P G (fresh d) in
  fst r = Returned tt
  /\ locked (core (snd r)) = false
  /\ (forall g0 : string,
        guild_timezones g0 (file (core (snd r))) = guild_timezones g0 d)
  /\ (forall g : Z,
        match doc_time_message (str g) d with
        | Some (channel, id) =>
            if fetchable G channel id then
              dict_get g (time_message_cache (core (snd r)))
              = Some {| channel_id := channel; message_id := id |}
              /\ doc_time_message (str g) (file (core (snd r)))
                 = Some (channel, id)
            else
              dict_get g (time_message_cache (core (snd r))) = None
              /\ doc_time_message (str g) (file (core (snd r))) = None
              /\ In (TimeMessageNotFound (str g))
                    (map snd (journal (snd r)))
        | None =>
            dict_get g (time_message_cache (core (snd r))) = None
            /\ doc_time_message (str g) (file (core (snd r))) = None
        end).
Proof.
  intros Hwf Hkeys r. subst r.
  set (s0 := {| core := after [EvAcquire; EvLoad; EvRelease] (idle d []);
                journal := [] |}).
  assert (Hrun : populate_time_message_cache P G (fresh d)
                 = task_for_each d (populate_guild P G) s0).
  { unfold populate_time_message_cache, task_bind, lift, fresh.
    cbn [core journal].
    now rewrite (run_locked_load P (idle d []) eq_refl). }
  rewrite Hrun. clear Hrun.
  assert (Hitems : forall item, In item d ->
            (exists n, fst item = str n)
            /\ dict_get (fst item) (file (core s0)) = Some (snd item)).
  { intros [k gd] Hin. cbn [fst snd]. split.
    - apply Hkeys. unfold keys. change k with (fst (k, gd)). now apply in_map.
    - now apply in_dict_get. }
  destruct (populate_loop_effect d s0 eq_refl Hwf Hitems)
    as (Hret & Hl & Htz & Hframe & _ & Hall).
  cbv zeta in Hret, Hl, Htz, Hframe, Hall.
  set (r := task_for_each d (populate_guild P G) s0) in *.
  split; [exact Hret|]. split; [exact Hl|]. split; [exact Htz|].
  intros g. unfold doc_time_message at 1.
  destruct (dict_get (str g) d) as [gd|] eqn:Hget.
  - specialize (Hall g gd (dict_get_in _ _ _ Hget)).
    destruct (time_message gd) as [[channel id]|]; auto.
  - assert (Hnot : ~ In (str g) (map fst d)).
    { intros Hin. apply dict_get_in_keys in Hin. unfold dict_in in Hin.
      now rewrite Hget in Hin. }
    destruct (Hframe g Hnot) as [Hc Hf]. split; [exact Hc|].
    unfold doc_time_message. rewrite Hf. simpl. now rewrite Hget.
Qed.

End PopulateFacts.

Lemma sample_document_wf : dict_wf sample_document.
Proof.
  repeat constructor; simpl; tauto.
Defined.

Lemma sample_document_keys :
  forall k, In k (keys sample_document) -> exists n, k = str n.
Proof.
  intros k [<-|[]]. exists 1. reflexivity.
Defined.

Lemma populate_time_message_cache_reconciles_witness :
  dict_wf sample_document
  /\ (forall k, In k (keys sample_document) -> exists n, k = str n)
  /\ fst (populate_time_message_cache sample_platform lost_gateway
            (fresh sample_document))
     = Returned tt.
Proof.
  split; [exact sample_document_wf|]. split; [exact sample_document_keys|].
  exact (proj1 (populate_time_message_cache_reconciles
                  sample_platform lost_gateway sample_document
                  sample_document_wf sample_document_keys)).
Defined.
